(** * ABQ data entry: the validation framework and the save handlers

    A shallow embedding of [data_entry_app.py] (the script version),
    [data_entry_app_class.py] (the class version with [ValidatedMixin]) and
    [DateEntry.py] (the stand-alone date entry), and the properties of the
    save handlers and of the validation rules.

    Python [str] values are modelled by [string]; a character is a code point
    in the range U+0000 .. U+00FF. *)

From stdpp Require Import gmap strings list pretty.
From Stdlib Require Import Ascii QArith.

Local Open Scope string_scope.
Local Open Scope list_scope.
Local Open Scope Z_scope.

(** ** Exceptions and results *)

Inductive exn :=
| TclError
| ValueError (msg : string)
| OverflowError
| InvalidOperation
| KeyError (key : string).

Inductive result (A : Type) :=
| Ok (a : A)
| Raise (e : exn).
Arguments Ok {A} a.
Arguments Raise {A} e.

(** An exception raised in [m] propagates; [x ← m; k] is stdpp's notation
    for the bind. *)
#[global] Instance result_bind : MBind result := fun A B k m =>
  match m with
  | Ok a => k a
  | Raise e => Raise e
  end.

#[global] Instance result_ret : MRet result := fun A a => Ok a.

(** ** Dictionaries in insertion order

    A [dict] keeps its keys in insertion order, and [csv.DictWriter] takes its
    columns from that order, so a dictionary is an association list;
    [d[k] = v] updates in place when the key is present and appends when not. *)

Definition Dict (V : Type) := list (string * V).

Fixpoint dict_get {V} (d : Dict V) (k : string) : option V :=
  match d with
  | [] => None
  | (k', v) :: d' => if String.eqb k' k then Some v else dict_get d' k
  end.

Fixpoint dict_set {V} (d : Dict V) (k : string) (v : V) : Dict V :=
  match d with
  | [] => [(k, v)]
  | (k', v') :: d' =>
      if String.eqb k' k then (k', v) :: d' else (k', v') :: dict_set d' k v
  end.

Definition keys {V} (d : Dict V) : list string := map fst d.
Definition values {V} (d : Dict V) : list V := map snd d.

(** [key in (a, b, c)] on strings. *)
Definition str_in (k : string) (l : list string) : bool :=
  existsb (String.eqb k) l.
Arguments str_in : simpl never.

(** ** Python strings *)

Definition code (c : ascii) : N := N_of_ascii c.

(** [c.isdigit()] on one character: the ASCII digits and, in this range, the
    superscripts U+00B2, U+00B3 and U+00B9 (Numeric_Type=Digit). *)
Definition isdigit_char (c : ascii) : bool :=
  let n := code c in
  ((48 <=? n) && (n <=? 57) || (n =? 178) || (n =? 179) || (n =? 185))%N.

(** [s.isdigit()]: at least one character, and all of them digits. *)
Definition isdigit (s : string) : bool :=
  match s with
  | EmptyString => false
  | _ => forallb isdigit_char (String.list_ascii_of_string s)
  end.

(** The digits [0-9] alone: what [int], [Decimal] and the pattern [\d] take
    among the code points of this range. *)
Definition is_decimal_char (c : ascii) : bool :=
  let n := code c in ((48 <=? n) && (n <=? 57))%N.

Definition digit_value (c : ascii) : N := (code c - 48)%N.

(** [c.lower()] on one character: A-Z, and U+00C0 .. U+00DE but U+00D7. *)
Definition lower_char (c : ascii) : ascii :=
  let n := code c in
  if ((65 <=? n) && (n <=? 90)
      || (192 <=? n) && (n <=? 222) && negb (n =? 215))%N
  then ascii_of_N (n + 32) else c.

Fixpoint lower (s : string) : string :=
  match s with
  | EmptyString => EmptyString
  | String c s' => String (lower_char c) (lower s')
  end.

(** [s.startswith(p)] *)
Definition startswith (s p : string) : bool := String.prefix p s.

(** [a in b] on strings: [a] occurs in [b]. *)
Fixpoint str_contains (a b : string) : bool :=
  String.prefix a b ||
  match b with
  | EmptyString => false
  | String _ b' => str_contains a b'
  end.

(** ** Floats and decimals

    What a float is worth: Python compares a [Decimal] with a float by the
    float's exact value. *)
Inductive extended := NegInfinity | Finite (q : Q) | Infinity.

(** [decimal.Decimal], the finite values: [as_tuple()] is the sign, the
    digits of [coefficient] and [exponent]. *)
Record Decimal := mkDecimal { sign : bool; coefficient : N; exponent : Z }.

Definition Decimal_value (d : Decimal) : Q :=
  let c := if sign d then (- Z.of_N (coefficient d))%Z else Z.of_N (coefficient d) in
  if (0 <=? exponent d)%Z
  then inject_Z (c * 10 ^ exponent d)
  else Qmake c (Z.to_pos (10 ^ (- exponent d))).

(** [d > x] and [d < x] for a float [x] worth [v]. *)
Definition Decimal_gt (d : Decimal) (v : extended) : bool :=
  match v with
  | NegInfinity => true
  | Finite q => negb (Qle_bool (Decimal_value d) q)
  | Infinity => false
  end.

Definition Decimal_lt (d : Decimal) (v : extended) : bool :=
  match v with
  | NegInfinity => false
  | Finite q => negb (Qle_bool q (Decimal_value d))
  | Infinity => true
  end.

(** [x >= 0] on a float worth [v]. *)
Definition nonnegative (v : extended) : bool :=
  match v with
  | NegInfinity => false
  | Finite q => Qle_bool 0 q
  | Infinity => true
  end.

Fixpoint take_while {A} (p : A -> bool) (l : list A) : list A :=
  match l with
  | x :: l' => if p x then x :: take_while p l' else []
  | [] => []
  end.

Fixpoint drop_while {A} (p : A -> bool) (l : list A) : list A :=
  match l with
  | x :: l' => if p x then drop_while p l' else l
  | [] => []
  end.

(** The number that a run of digits writes, most significant first. *)
Fixpoint digits_value (acc : N) (l : list ascii) : N :=
  match l with
  | [] => acc
  | c :: l' => digits_value (10 * acc + digit_value c)%N l'
  end.

(** [Decimal(s)] on the numerals made of a sign, digits and a point:
    [[sign] digits [. [digits]]] or [[sign] . digits]; any other text of these
    characters raises [InvalidOperation].  The exponent forms, the special
    values and the blanks and underscores that the constructor also takes are
    not in the model: the key rule of the spin box lets none of their
    characters in. *)
Definition Decimal_of_str (s : string) : result Decimal :=
  let l := String.list_ascii_of_string s in
  let '(sg, body) :=
    match l with
    | "-"%char :: l' => (true, l')
    | "+"%char :: l' => (false, l')
    | _ => (false, l)
    end in
  let int_part := take_while is_decimal_char body in
  let rest := drop_while is_decimal_char body in
  match rest with
  | [] =>
      if bool_decide (int_part = []) then Raise InvalidOperation
      else Ok (mkDecimal sg (digits_value 0 int_part) 0)
  | "."%char :: frac =>
      if forallb is_decimal_char frac
         && negb (bool_decide (int_part = []) && bool_decide (frac = []))
      then Ok (mkDecimal sg (digits_value 0 (int_part ++ frac))
                 (- Z.of_nat (length frac)))
      else Raise InvalidOperation
  | _ => Raise InvalidOperation
  end.

(** [d.normalize()], on a coefficient short enough for the context not to
    round it (28 digits): the trailing zeros of the coefficient move into the
    exponent, and a zero gets the exponent 0. *)
Fixpoint strip_zeros (fuel : nat) (c : N) (e : Z) : N * Z :=
  match fuel with
  | O => (c, e)
  | S fuel' =>
      if (c mod 10 =? 0)%N then strip_zeros fuel' (c / 10)%N (e + 1) else (c, e)
  end.

Definition normalize (d : Decimal) : Decimal :=
  if (coefficient d =? 0)%N then mkDecimal (sign d) 0 0
  else
    let '(c, e) := strip_zeros (N.to_nat (N.log2 (coefficient d)) + 1)
                     (coefficient d) (exponent d) in
    mkDecimal (sign d) c e.

(** ** tkinter control variables

    A control variable names a Tcl variable; [var_value] is the Tcl value it
    holds.  The Tcl conversions ([getint], [getdouble], [getboolean]), the
    float type and Python's [int] and [bool] on a float belong to the tool kit
    and to the interpreter: the development is parametric in them. *)

Class Tcl := {
  TkFloat : Type;
  getint : string -> option Z;
  getdouble : string -> option TkFloat;
  getboolean : string -> option bool;
  (* [int(x)]: [OverflowError] on an infinity, [ValueError] on a NaN *)
  int_of_float : TkFloat -> result Z;
  (* [bool(x)] *)
  bool_of_float : TkFloat -> bool;
  (* the exact value of a float that is not a NaN, and [str(x)] *)
  float_value : TkFloat -> extended;
  float_str : TkFloat -> string
}.

Inductive VarClass := StringVar | IntVar | DoubleVar | BooleanVar.

Record TkVar := mkVar { var_class : VarClass; var_value : string }.

Inductive PyVal `{Tcl} :=
| VStr (s : string)
| VInt (z : Z)
| VFloat (x : TkFloat)
| VBool (b : bool).

(** The truth value [if v] tests. *)
Definition truth `{Tcl} (v : PyVal) : bool :=
  match v with
  | VStr s => negb (String.eqb s "")
  | VInt z => negb (z =? 0)
  | VFloat x => bool_of_float x
  | VBool b => b
  end.

(** [IntVar.get]: [getint], and when that fails [int(getdouble(value))]. *)
Definition IntVar_get `{Tcl} (value : string) : result Z :=
  match getint value with
  | Some z => Ok z
  | None =>
      match getdouble value with
      | Some x => int_of_float x
      | None => Raise TclError
      end
  end.

Definition DoubleVar_get `{Tcl} (value : string) : result TkFloat :=
  match getdouble value with
  | Some x => Ok x
  | None => Raise TclError
  end.

(** [BooleanVar.get] turns the [TclError] into a [ValueError]. *)
Definition BooleanVar_get `{Tcl} (value : string) : result bool :=
  match getboolean value with
  | Some b => Ok b
  | None => Raise (ValueError "invalid literal for getboolean()")
  end.

(** [variable.get()]. *)
Definition Variable_get `{Tcl} (v : TkVar) : result PyVal :=
  match var_class v with
  | StringVar => Ok (VStr (var_value v))
  | IntVar => z ← IntVar_get (var_value v); Ok (VInt z)
  | DoubleVar => x ← DoubleVar_get (var_value v); Ok (VFloat x)
  | BooleanVar => b ← BooleanVar_get (var_value v); Ok (VBool b)
  end.

(** [variable.set(False)] on a [BooleanVar] and [variable.set('')] on the
    others, as both reset functions do. *)
Definition Variable_reset (v : TkVar) : TkVar :=
  match var_class v with
  | BooleanVar => mkVar BooleanVar "0"
  | c => mkVar c ""
  end.

(** [d[k]] *)
Definition dict_item {V} (d : Dict V) (k : string) : result V :=
  match dict_get d k with
  | Some v => Ok v
  | None => Raise (KeyError k)
  end.

(** ** The date and the file system *)

(** The calendar date [datetime.today()] returns. *)
Record date := mkDate { year : N; month : N; day : N }.

(** [str.zfill]. *)
Definition zfill (width : nat) (s : string) : string :=
  String.concat "" (replicate (width - String.length s) "0") +:+ s.

(** [strftime("%Y-%m-%d")], for the years of four digits that the system
    clock gives. *)
Definition strftime_Ymd (d : date) : string :=
  zfill 4 (pretty (year d)) +:+ "-" +:+ zfill 2 (pretty (month d))
    +:+ "-" +:+ zfill 2 (pretty (day d)).

(** A CSV file is the list of the rows written to it, a row the list of its
    cells; [writeheader] writes the field names as a row.  The directory is
    taken to be writable. *)
Definition Row `{Tcl} := list PyVal.
Abbreviation Files := (gmap string (list Row)).

Definition Path_exists `{Tcl} (filename : string) (fs : Files) : bool :=
  bool_decide (is_Some (fs !! filename)).

Definition header_row `{Tcl} (fieldnames : list string) : Row :=
  map VStr fieldnames.

(** [with open(filename, 'a', newline='') as fh]: a [DictWriter] over the keys
    of [data], [writeheader()] when [newfile], then [writerow(data)]. *)
Definition write_csv `{Tcl} (filename : string) (newfile : bool)
    (data : Dict PyVal) (fs : Files) : Files :=
  let old := default [] (fs !! filename) in
  let head := if newfile then [header_row (keys data)] else [] in
  <[filename := old ++ head ++ [values data]]> fs.

Definition save_filename (today : date) : string :=
  "abq_data_record_" +:+ strftime_Ymd today +:+ ".csv".

(** The three readings that an equipment fault blanks. *)
Definition environmental : list string := ["Light"; "Humidity"; "Temperature"].

(** ** The class version: [DataRecordForm] *)

Module DataRecordForm.

(** The dictionary [self._vars] that [__init__] builds: each variable with
    the default value of its class. *)
Definition _vars_init : Dict TkVar :=
  [ ("Date", mkVar StringVar "");
    ("Time", mkVar StringVar "");
    ("Technician", mkVar StringVar "");
    ("Lab", mkVar StringVar "");
    ("Plot", mkVar IntVar "0");
    ("Seed Sample", mkVar StringVar "");
    ("Humidity", mkVar DoubleVar "0.0");
    ("Light", mkVar DoubleVar "0.0");
    ("Temperature", mkVar DoubleVar "0.0");
    ("Equipment Fault", mkVar BooleanVar "0");
    ("Plants", mkVar IntVar "0");
    ("Blossoms", mkVar IntVar "0");
    ("Fruit", mkVar IntVar "0");
    ("Min Height", mkVar DoubleVar "0.0");
    ("Max Height", mkVar DoubleVar "0.0");
    ("Med Height", mkVar DoubleVar "0.0");
    ("Notes", mkVar StringVar "") ].

(** [reset] *)
Definition reset (_vars : Dict TkVar) : Dict TkVar :=
  map (fun kv => (kv.1, Variable_reset kv.2)) _vars.

(** The loop of [get] over [self._vars.items()], [data] being the dictionary
    built so far. *)
Fixpoint get_items `{Tcl} (fault : bool) (items : Dict TkVar)
    (data : Dict PyVal) : result (Dict PyVal) :=
  match items with
  | [] => Ok data
  | (key, variable) :: items' =>
      if fault && str_in key environmental
      then get_items fault items' (dict_set data key (VStr ""))
      else
        match Variable_get variable with
        | Ok v => get_items fault items' (dict_set data key v)
        | Raise TclError =>
            Raise (ValueError
                     ("Error in field: " +:+ key +:+ ". Data is not saved!"))
        | Raise e => Raise e
        end
  end.

(** [get] *)
Definition get `{Tcl} (_vars : Dict TkVar) : result (Dict PyVal) :=
  variable ← dict_item _vars "Equipment Fault";
  fault ← Variable_get variable;
  get_items (truth fault) _vars [].

End DataRecordForm.

(** ** The class version: [Application] *)

Module Application.

Record t := mk {
  recordform : Dict TkVar;      (* the form's [_vars] *)
  status : string;
  _records_saved : Z
}.

(** [_on_save]: the exception that escapes the handler, if one does, and the
    files and the application after it. *)
Definition _on_save `{Tcl} (today : date) (fs : Files) (self : t)
    : option exn * Files * t :=
  let filename := save_filename today in
  let newfile := negb (Path_exists filename fs) in
  match DataRecordForm.get (recordform self) with
  | Raise (ValueError e) =>
      (None, fs, mk (recordform self) e (_records_saved self))
  | Raise e => (Some e, fs, self)
  | Ok data =>
      let fs' := write_csv filename newfile data fs in
      let n := _records_saved self + 1 in
      (None, fs',
       mk (DataRecordForm.reset (recordform self))
          (pretty n +:+ " records saved this session.") n)
  end.

End Application.

(** ** The script version, [data_entry_app.py] *)

Module Script.

(** The module's globals: [variables], the text of [notes_inp],
    [status_variable] and [records_saved]. *)
Record t := mk {
  variables : Dict TkVar;
  notes_inp : string;
  status_variable : string;
  records_saved : Z
}.

(** The dictionary [variables] once the module has built its widgets. *)
Definition variables_init : Dict TkVar :=
  [ ("Date", mkVar StringVar "");
    ("Time", mkVar StringVar "");
    ("Technician", mkVar StringVar "");
    ("Lab", mkVar StringVar "");
    ("Plot", mkVar IntVar "0");
    ("Seed Sample", mkVar StringVar "");
    ("Humidity", mkVar DoubleVar "0.0");
    ("Light", mkVar DoubleVar "0.0");
    ("Temperature", mkVar DoubleVar "0.0");
    ("Equipment Fault", mkVar BooleanVar "0");
    ("Plants", mkVar IntVar "0");
    ("Blossoms", mkVar IntVar "0");
    ("Fruit", mkVar IntVar "0");
    ("Min Height", mkVar DoubleVar "0.0");
    ("Max Height", mkVar DoubleVar "0.0");
    ("Med Height", mkVar DoubleVar "0.0") ].

(** [on_reset] *)
Definition on_reset (g : t) : t :=
  mk (map (fun kv => (kv.1, Variable_reset kv.2)) (variables g)) ""
     (status_variable g) (records_saved g).

(** What the loop of [on_save] ends with: the dictionary, the field whose read
    raised [TclError] (the handler then returns), or another exception. *)
Inductive read_outcome `{Tcl} :=
| Read (data : Dict PyVal)
| FieldError (key : string)
| Escaped (e : exn).

Fixpoint read_items `{Tcl} (fault : bool) (items : Dict TkVar)
    (data : Dict PyVal) : read_outcome :=
  match items with
  | [] => Read data
  | (key, variable) :: items' =>
      if fault && str_in key environmental
      then read_items fault items' (dict_set data key (VStr ""))
      else
        match Variable_get variable with
        | Ok v => read_items fault items' (dict_set data key v)
        | Raise TclError => FieldError key
        | Raise e => Escaped e
        end
  end.

(** [notes_inp.get('1.0', tk.END)]: the text with the newline that ends it. *)
Definition notes_get (g : t) : string := notes_inp g +:+ "
".

(** The record that [on_save] assembles: the fault flag, the loop over
    [variables.items()], then the text of the notes. *)
Definition read_form `{Tcl} (g : t) : read_outcome :=
  match variable ← dict_item (variables g) "Equipment Fault";
        Variable_get variable with
  | Raise e => Escaped e
  | Ok fault =>
      match read_items (truth fault) (variables g) [] with
      | Read data => Read (dict_set data "Notes" (VStr (notes_get g)))
      | FieldError key => FieldError key
      | Escaped e => Escaped e
      end
  end.

(** [on_save]: the exception that escapes the handler, if one does, and the
    files and the globals after it. *)
Definition on_save `{Tcl} (today : date) (fs : Files) (g : t)
    : option exn * Files * t :=
  let filename := save_filename today in
  let newfile := negb (Path_exists filename fs) in
  match read_form g with
  | Escaped e => (Some e, fs, g)
  | FieldError key =>
      (None, fs,
       mk (variables g) (notes_inp g)
          ("Error in field: " +:+ key +:+ ". Data was not saved!")
          (records_saved g))
  | Read data =>
      let fs' := write_csv filename newfile data fs in
      let n := records_saved g + 1 in
      (None, fs',
       on_reset
         (mk (variables g) (notes_inp g)
             (pretty n +:+ " records saved this session") n))
  end.

End Script.

(** ** [datetime.strptime(s, '%Y-%m-%d')]

    The library turns the format into the pattern
    [(\d\d\d\d)-(1[0-2]|0[1-9]|[1-9])-(3[0-1]|[1-2]\d|0[1-9]|[1-9]| [1-9])],
    matches it at the start of the text, refuses a text that goes on after the
    match, and builds the date, which checks the year and the day.  A pattern
    is modelled by the list of its matches at the head of the text, in the
    order in which the engine tries them: the value read and the rest. *)

Definition in_range (lo hi : N) (c : ascii) : bool :=
  ((lo <=? code c) && (code c <=? hi))%N.

(** [\d\d\d\d] *)
Definition re_Y (l : list ascii) : list (N * list ascii) :=
  match l with
  | a :: b :: c :: d :: r =>
      if forallb is_decimal_char [a; b; c; d]
      then [(digits_value 0 [a; b; c; d], r)] else []
  | _ => []
  end.

(** Two characters of given ranges, and one. *)
Definition re_two (lo1 hi1 lo2 hi2 : N) (l : list ascii) : list (N * list ascii) :=
  match l with
  | a :: b :: r =>
      if in_range lo1 hi1 a && in_range lo2 hi2 b
      then [(digits_value 0 [a; b], r)] else []
  | _ => []
  end.

Definition re_one (lo hi : N) (l : list ascii) : list (N * list ascii) :=
  match l with
  | a :: r => if in_range lo hi a then [(digit_value a, r)] else []
  | _ => []
  end.

(** [1[0-2]|0[1-9]|[1-9]] *)
Definition re_m (l : list ascii) : list (N * list ascii) :=
  re_two 49 49 48 50 l ++ re_two 48 48 49 57 l ++ re_one 49 57 l.

(** One given character. *)
Definition re_char (c : ascii) (l : list ascii) : list (list ascii) :=
  match l with
  | a :: r => if Ascii.eqb a c then [r] else []
  | [] => []
  end.

(** [3[0-1]|[1-2]\d|0[1-9]|[1-9]| [1-9]]; the last form is a blank and a
    digit. *)
Definition re_d (l : list ascii) : list (N * list ascii) :=
  re_two 51 51 48 49 l ++ re_two 49 50 48 57 l ++ re_two 48 48 49 57 l
    ++ re_one 49 57 l
    ++ (r ← re_char " " l; re_one 49 57 r).

(** The hyphen of the format. *)
Definition re_hyphen (l : list ascii) : list (list ascii) := re_char "-" l.

(** All the matches of the whole pattern, the first being the one [match]
    returns. *)
Definition re_Ymd (l : list ascii) : list (N * N * N * list ascii) :=
  '(y, l1) ← re_Y l;
  l2 ← re_hyphen l1;
  '(m, l3) ← re_m l2;
  l4 ← re_hyphen l3;
  '(d, l5) ← re_d l4;
  [(y, m, d, l5)].

Definition is_leap (y : N) : bool :=
  ((y mod 4 =? 0) && (negb (y mod 100 =? 0) || (y mod 400 =? 0)))%N.

Definition days_in_month (y m : N) : N :=
  (match m with
   | 2 => if is_leap y then 29 else 28
   | 4 | 6 | 9 | 11 => 30
   | _ => 31
   end)%N.

(** [datetime(y, m, d)] *)
Definition datetime (y m d : N) : result date :=
  if ((1 <=? y) && (y <=? 9999))%N then
    if ((1 <=? m) && (m <=? 12))%N then
      if ((1 <=? d) && (d <=? days_in_month y m))%N then Ok (mkDate y m d)
      else Raise (ValueError "day is out of range for month")
    else Raise (ValueError "month must be in 1..12")
  else Raise (ValueError "year is out of range").

Definition strptime_Ymd (s : string) : result date :=
  match re_Ymd (String.list_ascii_of_string s) with
  | [] => Raise (ValueError "time data does not match format")
  | (y, m, d, rest) :: _ =>
      match rest with
      | [] => datetime y m d
      | _ => Raise (ValueError "unconverted data remains")
      end
  end.

(** ** The validation framework: [ValidatedMixin] *)

(** The substitutions [%P %s %S %V %i %d] that Tk passes to the callbacks. *)
Record Args := mkArgs {
  proposed : string;
  current : string;
  char : string;
  event : string;
  index : string;
  action : string
}.

(** An input widget of a class whose options are [C]: its text (what
    [self.get()] returns), its error variable [self.error], and the options
    [foreground] and [state]; [cursor] is the insertion cursor. *)
Record Widget (C : Type) := mkWidget {
  options : C;
  text : string;
  error : string;
  foreground : string;
  state : string;
  cursor : nat
}.
Arguments mkWidget {C}.
Arguments options {C}.
Arguments text {C}.
Arguments error {C}.
Arguments foreground {C}.
Arguments state {C}.
Arguments cursor {C}.

Definition error_set {C} (msg : string) (w : Widget C) : Widget C :=
  mkWidget (options w) (text w) msg (foreground w) (state w) (cursor w).

Definition configure_foreground {C} (colour : string) (w : Widget C) : Widget C :=
  mkWidget (options w) (text w) (error w) colour (state w) (cursor w).

(** [self.set(value)] *)
Definition set {C} (value : string) (w : Widget C) : Widget C :=
  mkWidget (options w) value (error w) (foreground w) (state w) (cursor w).

(** [self.icursor(tk.END)] *)
Definition icursor_END {C} (w : Widget C) : Widget C :=
  mkWidget (options w) (text w) (error w) (foreground w) (state w)
    (String.length (text w)).

Definition DISABLED : string := "disabled".
Definition NORMAL : string := "normal".

(** The two rules a widget class gives; a rule returns its verdict, or raises,
    and may change the widget. *)
Class ValidatedMixin (C : Type) := {
  _focusout_validate : Widget C -> result bool * Widget C;
  _key_validate : Args -> Widget C -> result bool * Widget C
}.

(** The placeholders of the mixin, which accept. *)
Definition placeholder_focusout {C} (self : Widget C) : result bool * Widget C :=
  (Ok true, self).
Definition placeholder_key {C} (a : Args) (self : Widget C) : result bool * Widget C :=
  (Ok true, self).

Definition _toggle_error {C} (on : bool) (self : Widget C) : Widget C :=
  configure_foreground (if on then "red" else "black") self.

Definition _validate `{ValidatedMixin C} (a : Args) (self : Widget C)
    : result bool * Widget C :=
  let self := error_set "" self in
  let self := _toggle_error false self in
  if String.eqb (state self) DISABLED then (Ok true, self)
  else if String.eqb (event a) "focusout" then _focusout_validate self
  else if String.eqb (event a) "key" then _key_validate a self
  else (Ok true, self).

Definition _focusout_invalid {C} (self : Widget C) : Widget C :=
  _toggle_error true self.

Definition _key_invalid {C} (a : Args) (self : Widget C) : Widget C := self.

Definition _invalid {C} (a : Args) (self : Widget C) : Widget C :=
  if String.eqb (event a) "focusout" then _focusout_invalid self
  else if String.eqb (event a) "key" then _key_invalid a self
  else self.

Definition trigger_focusout_validation `{ValidatedMixin C} (self : Widget C)
    : result bool * Widget C :=
  let '(valid, self) := _validate (mkArgs "" "" "" "focusout" "" "") self in
  match valid with
  | Ok false => (valid, _focusout_invalid self)
  | _ => (valid, self)
  end.

(** What Tk does with a validation event: it calls the [validatecommand], and
    the [invalidcommand] when that returned false. *)
Definition validation_event `{ValidatedMixin C} (a : Args) (self : Widget C)
    : result bool * Widget C :=
  let '(valid, self) := _validate a self in
  match valid with
  | Ok false => (valid, _invalid a self)
  | _ => (valid, self)
  end.

(** ** The widget classes *)

Module RequiredEntry.

(** An entry has no option that the rules read. *)
Inductive t := new.

Definition _focusout_validate (self : Widget t) : result bool * Widget t :=
  if String.eqb (text self) ""
  then (Ok false, error_set "A value is required" self)
  else (Ok true, self).

End RequiredEntry.

#[global] Instance RequiredEntry_ValidatedMixin : ValidatedMixin RequiredEntry.t := {|
  _focusout_validate := RequiredEntry._focusout_validate;
  _key_validate := placeholder_key
|}.

Module DateEntry.

Inductive t := new.

Definition _key_validate (a : Args) (self : Widget t) : result bool * Widget t :=
  if String.eqb (action a) "0" then (Ok true, self)
  else if str_in (index a) ["0"; "1"; "2"; "3"; "5"; "6"; "8"; "9"]
  then (Ok (isdigit (char a)), self)
  else if str_in (index a) ["4"; "7"]
  then (Ok (String.eqb (char a) "-"), self)
  else (Ok false, self).

Definition _focusout_validate (self : Widget t) : result bool * Widget t :=
  let '(valid, self) :=
    if String.eqb (text self) ""
    then (false, error_set "A value is required" self)
    else (true, self) in
  match strptime_Ymd (text self) with
  | Raise (ValueError _) => (Ok false, error_set "Invalid date" self)
  | Raise e => (Raise e, self)
  | Ok _ => (Ok valid, self)
  end.

End DateEntry.

#[global] Instance DateEntry_ValidatedMixin : ValidatedMixin DateEntry.t := {|
  _focusout_validate := DateEntry._focusout_validate;
  _key_validate := DateEntry._key_validate
|}.

Module ValidatedCombobox.

(** The option [values]. *)
Record t := new { values : list string }.

Definition matching (self : Widget t) (proposed : string) : list string :=
  List.filter (fun x => startswith (lower x) (lower proposed))
    (values (options self)).

Definition _key_validate (a : Args) (self : Widget t) : result bool * Widget t :=
  if String.eqb (action a) "0" then (Ok true, set "" self)
  else
    match matching self (proposed a) with
    | [] => (Ok false, self)
    | [x] => (Ok false, icursor_END (set x self))
    | _ => (Ok true, self)
    end.

Definition _focusout_validate (self : Widget t) : result bool * Widget t :=
  if String.eqb (text self) ""
  then (Ok false, error_set "A value is required" self)
  else (Ok true, self).

End ValidatedCombobox.

#[global] Instance ValidatedCombobox_ValidatedMixin
  : ValidatedMixin ValidatedCombobox.t := {|
  _focusout_validate := ValidatedCombobox._focusout_validate;
  _key_validate := ValidatedCombobox._key_validate
|}.

Module ValidatedSpinbox.

(** The options [from] and [to], floats when read back with [cget], and the
    attribute [precision]. *)
Record t `{Tcl} := new { from_ : TkFloat; to : TkFloat; precision : Z }.
Arguments new {_} from_ to precision.

(** [__init__] computes [precision] from [str(increment)], ['1.0'] when no
    increment is given. *)
Definition precision_of (increment : string) : result Z :=
  d ← Decimal_of_str increment; Ok (exponent (normalize d)).

Definition _key_validate `{Tcl} (a : Args) (self : Widget t)
    : result bool * Widget t :=
  if String.eqb (action a) "0" then (Ok true, self)
  else
    let min_val := from_ (options self) in
    let max_val := to (options self) in
    let no_negative := nonnegative (float_value min_val) in
    let no_decimal := (0 <=? precision (options self)) in
    if negb (str_contains (char a) "-1234567890.")
       || String.eqb (char a) "-"
          && (no_negative || negb (String.eqb (index a) "0"))
       || String.eqb (char a) "."
          && (no_decimal || str_contains "." (current a))
    then (Ok false, self)
    else if str_contains (proposed a) "-." then (Ok true, self)
    else
      match Decimal_of_str (proposed a) with
      | Raise e => (Raise e, self)
      | Ok proposed =>
          let proposed_precision := exponent proposed in
          if Decimal_gt proposed (float_value max_val)
             || (proposed_precision <? precision (options self))
          then (Ok false, self)
          else (Ok true, self)
      end.

Definition _focusout_validate `{Tcl} (self : Widget t) : result bool * Widget t :=
  let value := text self in
  let min_val := from_ (options self) in
  let max_val := to (options self) in
  match Decimal_of_str value with
  | Raise InvalidOperation =>
      (Ok false, error_set ("Invalid number string: " +:+ value) self)
  | Raise e => (Raise e, self)
  | Ok d_value =>
      let '(valid, self) :=
        if Decimal_lt d_value (float_value min_val)
        then (false,
              error_set ("Value is too low (min " +:+ float_str min_val +:+ ")") self)
        else (true, self) in
      let '(valid, self) :=
        if Decimal_gt d_value (float_value max_val)
        then (false,
              error_set ("Value is too high (max " +:+ float_str max_val +:+ ")") self)
        else (valid, self) in
      (Ok valid, self)
  end.

End ValidatedSpinbox.

#[global] Instance ValidatedSpinbox_ValidatedMixin `{Tcl}
  : ValidatedMixin ValidatedSpinbox.t := {|
  _focusout_validate := ValidatedSpinbox._focusout_validate;
  _key_validate := ValidatedSpinbox._key_validate
|}.

Module ValidatedRadioGroup.

(** The group's variable and its error variable. *)
Record t := new { variable : string; error : string; values : list string }.

Definition trigger_focusout_validation (self : t) : t :=
  let self := new (variable self) "" (values self) in
  if String.eqb (variable self) ""
  then new (variable self) "A value is required" (values self)
  else self.

End ValidatedRadioGroup.

(** ** The stand-alone date entry of [DateEntry.py] *)

Module StandaloneDateEntry.

Inductive t := new.

(** [_toggle_error(error)] sets the error variable and the colour. *)
Definition _toggle_error (error : string) (self : Widget t) : Widget t :=
  configure_foreground (if String.eqb error "" then "black" else "red")
    (error_set error self).

(** [_validate(char, index, event, action)] *)
Definition _validate (a : Args) (self : Widget t) : result bool * Widget t :=
  let self := _toggle_error "" self in
  if String.eqb (event a) "key" then
    if String.eqb (action a) "0" then (Ok true, self)
    else if str_in (index a) ["0"; "1"; "2"; "3"; "5"; "6"; "8"; "9"]
    then (Ok (isdigit (char a)), self)
    else if str_in (index a) ["4"; "7"]
    then (Ok (String.eqb (char a) "-"), self)
    else (Ok false, self)
  else if String.eqb (event a) "focusout" then
    match strptime_Ymd (text self) with
    | Raise (ValueError _) => (Ok false, self)
    | Raise e => (Raise e, self)
    | Ok _ => (Ok true, self)
    end
  else (Ok true, self).

Definition _on_invalid (a : Args) (self : Widget t) : Widget t :=
  if negb (String.eqb (event a) "key")
  then _toggle_error "Not a valid date" self
  else self.

(** Tk calls [_validate], and [_on_invalid] when it returned false. *)
Definition validation_event (a : Args) (self : Widget t) : result bool * Widget t :=
  let '(valid, self) := _validate a self in
  match valid with
  | Ok false => (valid, _on_invalid a self)
  | _ => (valid, self)
  end.

End StandaloneDateEntry.

(** ** The inputs of the record form

    [DataRecordForm.__init__] gives each variable a [LabelInput] whose input
    widget shares the variable: the text of the widget is the value of the
    variable. *)

Module Inputs.

Inductive input_class :=
| Plain                                (* [ttk.Spinbox], [ttk.Checkbutton], [BoundText] *)
| Required                             (* [RequiredEntry] *)
| Date                                 (* [DateEntry] *)
| Combobox (values : list string)      (* [ValidatedCombobox] *)
| RadioGroup (values : list string)    (* [ValidatedRadioGroup] *)
| Spinbox (from_ to increment : string). (* [ValidatedSpinbox] *)

Definition inputs : Dict input_class :=
  [ ("Date", Date);
    ("Time", Combobox ["8:00"; "12:00"; "16:00"; "20:00"]);
    ("Technician", Required);
    ("Lab", RadioGroup ["A"; "B"; "C"]);
    ("Plot", Combobox ["1"; "2"; "3"; "4"; "5"; "6"; "7"; "8"; "9"; "10";
                       "11"; "12"; "13"; "14"; "15"; "16"; "17"; "18"; "19"; "20"]);
    ("Seed Sample", Required);
    ("Humidity", Spinbox "0.5" "52.0" "0.01");
    ("Light", Spinbox "0" "100" "0.01");
    ("Temperature", Spinbox "4" "40" "0.01");
    ("Equipment Fault", Plain);
    ("Plants", Spinbox "0" "20" "1.0");
    ("Blossoms", Spinbox "0" "1000" "1.0");
    ("Fruit", Spinbox "0" "1000" "1.0");
    ("Min Height", Plain);
    ("Max Height", Plain);
    ("Med Height", Plain);
    ("Notes", Plain) ].

(** A widget of options [o] in the normal state that holds [value]. *)
Definition widget {C} (o : C) (value : string) : Widget C :=
  mkWidget o value "" "" NORMAL 0.

(** The options of a [ValidatedSpinbox]: Tk reads the bounds as doubles. *)
Definition spinbox_options `{Tcl} (from_ to increment : string)
    : option ValidatedSpinbox.t :=
  match getdouble from_, getdouble to, ValidatedSpinbox.precision_of increment with
  | Some lo, Some hi, Ok p => Some (ValidatedSpinbox.new lo hi p)
  | _, _, _ => None
  end.

Definition accepts {C} (r : result bool * Widget C) : bool :=
  match r.1 with
  | Ok true => true
  | _ => false
  end.

(** The input holding [value] passes its focus-out rule. *)
Definition passes `{Tcl} (i : input_class) (value : string) : bool :=
  match i with
  | Plain => true
  | Required => accepts (trigger_focusout_validation (widget RequiredEntry.new value))
  | Date => accepts (trigger_focusout_validation (widget DateEntry.new value))
  | Combobox values =>
      accepts (trigger_focusout_validation
                 (widget (ValidatedCombobox.new values) value))
  | RadioGroup values =>
      String.eqb
        (ValidatedRadioGroup.error
           (ValidatedRadioGroup.trigger_focusout_validation
              (ValidatedRadioGroup.new value "" values))) ""
  | Spinbox from_ to increment =>
      match spinbox_options from_ to increment with
      | Some o => accepts (trigger_focusout_validation (widget o value))
      | None => false
      end
  end.

(** Every field of the form passes the rule of its input. *)
Definition all_valid `{Tcl} (_vars : Dict TkVar) : bool :=
  forallb (fun kv => passes (default Plain (dict_get inputs kv.1)) (var_value kv.2))
    _vars.

End Inputs.

(** ** An interpretation of the tool kit for the examples

    Floats are worth a decimal numeral's exact value; the conversions read
    plain decimal numerals, a fragment of what Tcl reads. *)

Module Numerals.

Definition getint (s : string) : option Z :=
  match Decimal_of_str s with
  | Ok d =>
      if str_contains "." s then None
      else Some (if sign d then - Z.of_N (coefficient d) else Z.of_N (coefficient d))
  | Raise _ => None
  end.

Definition getdouble (s : string) : option extended :=
  match Decimal_of_str s with
  | Ok d => Some (Finite (Decimal_value d))
  | Raise _ =>
      if String.eqb s "Infinity" then Some Infinity
      else if String.eqb s "-Infinity" then Some NegInfinity
      else None
  end.

Definition getboolean (s : string) : option bool :=
  if String.eqb s "0" then Some false
  else if String.eqb s "1" then Some true
  else None.

Definition int_of_float (x : extended) : result Z :=
  match x with
  | Finite q => Ok (Z.quot (Qnum q) (Zpos (Qden q)))
  | _ => Raise OverflowError
  end.

Definition bool_of_float (x : extended) : bool :=
  match x with
  | Finite q => negb (Qeq_bool q 0)
  | _ => true
  end.

(** The numeral of a natural number, and a float printed as a fraction. *)
Fixpoint numeral (fuel : nat) (n : N) (acc : string) : string :=
  match fuel with
  | O => acc
  | S fuel' =>
      let acc := String (ascii_of_N (48 + n mod 10)) acc in
      if (n <? 10)%N then acc else numeral fuel' (n / 10)%N acc
  end.

Definition float_str (x : extended) : string :=
  match x with
  | Finite q =>
      (if (Qnum q <? 0)%Z then "-" else "")
        +:+ numeral (S (N.to_nat (N.log2 (Z.abs_N (Qnum q))))) (Z.abs_N (Qnum q)) ""
        +:+ "/" +:+ numeral (S (Pos.to_nat (Pos.size (Qden q)))) (Npos (Qden q)) ""
  | Infinity => "inf"
  | NegInfinity => "-inf"
  end.

End Numerals.

#[global] Instance Numerals_Tcl : Tcl := {|
  TkFloat := extended;
  getint := Numerals.getint;
  getdouble := Numerals.getdouble;
  getboolean := Numerals.getboolean;
  int_of_float := Numerals.int_of_float;
  bool_of_float := Numerals.bool_of_float;
  float_value := fun x => x;
  float_str := Numerals.float_str
|}.

(** ** The vocabulary of the properties *)

(** What a handler leaves behind. *)
Definition escaped {A B} (r : option exn * A * B) : option exn := r.1.1.
Definition files_after {A B} (r : option exn * A * B) : A := r.1.2.
Definition state_after {A B} (r : option exn * A * B) : B := r.2.

(** One data row is appended to the file [name]: after a header when the
    file did not exist, after the rows it had when it did; no other file
    changes. *)
Definition one_row_appended `{Tcl} (fs fs' : Files) (name : string)
    (fieldnames : list string) (row : Row) : Prop :=
  match fs !! name with
  | None => fs' !! name = Some [header_row fieldnames; row]
  | Some rows => fs' !! name = Some (rows ++ [row])
  end ∧
  ∀ other, other ≠ name → fs' !! other = fs !! other.

(** The handler blanks the field [k], or reads its variable. *)
Definition blanked (fault : bool) (k : string) : bool :=
  fault && str_in k environmental.

Definition reads `{Tcl} (fault : bool) (kv : string * TkVar) : Prop :=
  blanked fault kv.1 = true ∨ ∃ c, Variable_get kv.2 = Ok c.

(** The entry [kc] of the record is the one of the variable [kv]: the same
    key, and the empty string when the field is blanked, the value of the
    variable when not. *)
Definition entry_of `{Tcl} (fault : bool) (kv : string * TkVar)
    (kc : string * PyVal) : Prop :=
  kc.1 = kv.1 ∧
  if blanked fault kv.1 then kc.2 = VStr "" else Variable_get kv.2 = Ok kc.2.

(** Two dictionaries that differ at most in the values of the environmental
    variables. *)
Definition same_but_environmental (vars vars' : Dict TkVar) : Prop :=
  Forall2 (fun kv kv' =>
             kv.1 = kv'.1 ∧ (str_in kv.1 environmental = false → kv.2 = kv'.2))
    vars vars'.

(** Every variable that the handler reads can be read: the fault flag, and
    each variable that the flag does not blank. *)
Definition all_readable `{Tcl} (vars : Dict TkVar) : Prop :=
  ∃ fv f, dict_get vars "Equipment Fault" = Some fv ∧
          Variable_get fv = Ok f ∧
          Forall (reads (truth f)) vars.

(** ** Examples *)

Module Examples.

Definition today : date := mkDate 2026 11 3.

(** The variables of a form filled in, but for the technician and the plot. *)
Definition filled (technician plot : string) : Dict TkVar :=
  [ ("Date", mkVar StringVar "2026-11-03");
    ("Time", mkVar StringVar "8:00");
    ("Technician", mkVar StringVar technician);
    ("Lab", mkVar StringVar "A");
    ("Plot", mkVar IntVar plot);
    ("Seed Sample", mkVar StringVar "AX477");
    ("Humidity", mkVar DoubleVar "24.5");
    ("Light", mkVar DoubleVar "1.25");
    ("Temperature", mkVar DoubleVar "22.1");
    ("Equipment Fault", mkVar BooleanVar "0");
    ("Plants", mkVar IntVar "9");
    ("Blossoms", mkVar IntVar "21");
    ("Fruit", mkVar IntVar "3");
    ("Min Height", mkVar DoubleVar "1.5");
    ("Max Height", mkVar DoubleVar "20.25");
    ("Med Height", mkVar DoubleVar "11");
    ("Notes", mkVar StringVar "") ].

(** The same form with the Equipment Fault box checked and a reading that
    does not parse. *)
Definition faulty : Dict TkVar :=
  [ ("Date", mkVar StringVar "2026-11-03");
    ("Light", mkVar DoubleVar "n/a");
    ("Equipment Fault", mkVar BooleanVar "1");
    ("Plants", mkVar IntVar "9") ].

(** The character U+00B2, superscript two. *)
Definition superscript_two : string := String "178"%char "".

(** A spin box made with the default bounds, ['-Infinity'] and ['Infinity'],
    and the default increment. *)
Definition default_spinbox (value : string) : Widget ValidatedSpinbox.t :=
  Inputs.widget (ValidatedSpinbox.new NegInfinity Infinity 0) value.

(** The Humidity spin box of the form. *)
Definition humidity_spinbox (value : string) : Widget ValidatedSpinbox.t :=
  Inputs.widget (ValidatedSpinbox.new (Finite (5 # 10)) (Finite 52) (-2)) value.

(** The Time combo box of the form. *)
Definition time_combobox (value : string) : Widget ValidatedCombobox.t :=
  Inputs.widget (ValidatedCombobox.new ["8:00"; "12:00"; "16:00"; "20:00"]) value.

(** The key event that inserts [char] at [index] in the text [current]. *)
Definition insertion (current char index proposed : string) : Args :=
  mkArgs proposed current char "key" index "1".

Definition deletion (current char index proposed : string) : Args :=
  mkArgs proposed current char "key" index "0".

Definition focusout : Args := mkArgs "" "" "" "focusout" "-1" "-1".

End Examples.

(** The keystroke rule as the specification words it: on an insertion, a
    decimal digit at one of the indexes 0, 1, 2, 3, 5, 6, 8, 9, or a hyphen
    at 4 or 7. *)
Definition iso_keystroke (c : ascii) (index : string) : bool :=
  is_decimal_char c && str_in index ["0"; "1"; "2"; "3"; "5"; "6"; "8"; "9"]
  || Ascii.eqb c "-" && str_in index ["4"; "7"].

(** A text laid out as the specification words it: four digits, a hyphen,
    two digits, a hyphen, two digits, that name a day of the calendar. *)
Definition iso_date_text (s : string) : bool :=
  match String.list_ascii_of_string s with
  | [y1; y2; y3; y4; h1; m1; m2; h2; d1; d2] =>
      forallb is_decimal_char [y1; y2; y3; y4; m1; m2; d1; d2]
      && Ascii.eqb h1 "-" && Ascii.eqb h2 "-"
      && (let y := digits_value 0 [y1; y2; y3; y4] in
          let m := digits_value 0 [m1; m2] in
          let d := digits_value 0 [d1; d2] in
          (1 <=? y)%N && (1 <=? m)%N && (m <=? 12)%N
          && (1 <=? d)%N && (d <=? days_in_month y m)%N)
  | _ => false
  end.

(** What [strptime] reads, field by field: a year of four digits, a hyphen, a
    month from 1 to 12 written with one or two digits, a hyphen, and a day
    from 1 to 31 written with one or two digits or with a blank and a
    digit. *)
Definition month_number (l : list ascii) : option N :=
  match l with
  | [a] => if in_range 49 57 a then Some (digit_value a) else None
  | [a; b] =>
      if is_decimal_char a && is_decimal_char b
         && (1 <=? digits_value 0 [a; b])%N && (digits_value 0 [a; b] <=? 12)%N
      then Some (digits_value 0 [a; b]) else None
  | _ => None
  end.

Definition day_number (l : list ascii) : option N :=
  match l with
  | [a] => if in_range 49 57 a then Some (digit_value a) else None
  | [a; b] =>
      if Ascii.eqb a " "
      then if in_range 49 57 b then Some (digit_value b) else None
      else
        if is_decimal_char a && is_decimal_char b
           && (1 <=? digits_value 0 [a; b])%N && (digits_value 0 [a; b] <=? 31)%N
        then Some (digits_value 0 [a; b]) else None
  | _ => None
  end.

(** The text up to its first hyphen, and the text after it. *)
Fixpoint split_hyphen (l : list ascii) : option (list ascii * list ascii) :=
  match l with
  | [] => None
  | a :: r =>
      if Ascii.eqb a "-" then Some ([], r)
      else '(before, after) ← split_hyphen r; Some (a :: before, after)
  end.

Definition date_fields (s : string) : option (N * N * N) :=
  match String.list_ascii_of_string s with
  | y1 :: y2 :: y3 :: y4 :: h :: rest =>
      if forallb is_decimal_char [y1; y2; y3; y4] && Ascii.eqb h "-"
      then
        '(ml, dl) ← split_hyphen rest;
        m ← month_number ml;
        d ← day_number dl;
        Some (digits_value 0 [y1; y2; y3; y4], m, d)
      else None
  | _ => None
  end.

(** The character tests of the spin box on one character, as the
    specification words them: the character is a hyphen, a point or a digit;
    a hyphen only at the index 0 and under a negative minimum; a point only
    when the increment has decimal places and the text has no point yet. *)
Definition admissible `{Tcl} (self : Widget ValidatedSpinbox.t) (a : Args)
    (c : ascii) : bool :=
  (Ascii.eqb c "-" || Ascii.eqb c "." || is_decimal_char c)
  && negb (Ascii.eqb c "-"
           && (nonnegative (float_value (ValidatedSpinbox.from_ (options self)))
               || negb (String.eqb (index a) "0")))
  && negb (Ascii.eqb c "."
           && ((0 <=? ValidatedSpinbox.precision (options self))
               || str_contains "." (current a))).

(** ** The life of a widget

    What happens to a widget once it is made: validation events, and between
    them edits of its text and changes of its state.  [run] keeps the log of
    the validation calls, the most recent first: the event and the verdict. *)

Inductive step :=
| Validation (a : Args)
| Edit (value : string) (position : nat)
| Configure_state (s : string).

Definition Log := list (string * result bool).

Fixpoint run `{ValidatedMixin C} (steps : list step) (w : Widget C) (log : Log)
    : Widget C * Log :=
  match steps with
  | [] => (w, log)
  | Validation a :: steps' =>
      let '(verdict, w') := validation_event a w in
      run steps' w' ((event a, verdict) :: log)
  | Edit value position :: steps' =>
      run steps'
        (mkWidget (options w) value (error w) (foreground w) (state w) position)
        log
  | Configure_state s :: steps' =>
      run steps'
        (mkWidget (options w) (text w) (error w) (foreground w) s (cursor w))
        log
  end.

(** The verdict of the most recent focus-out validation. *)
Fixpoint last_focusout (log : Log) : option (result bool) :=
  match log with
  | [] => None
  | (ev, verdict) :: log' =>
      if String.eqb ev "focusout" then Some verdict else last_focusout log'
  end.

(** The most recent validation call was a focus-out validation that failed. *)
Definition last_call_failed_focusout (log : Log) : Prop :=
  head log = Some ("focusout", Ok false).

(** What the rules of a class owe the framework: a focus-out rule leaves a
    message exactly when it fails, a key rule leaves the error alone, and
    neither touches the foreground. *)
Class Lawful (C : Type) `{ValidatedMixin C} : Prop := {
  focusout_error : ∀ w : Widget C,
    error w = "" →
    ((_focusout_validate w).1 = Ok false ↔ error (_focusout_validate w).2 ≠ "");
  focusout_foreground : ∀ w : Widget C,
    foreground (_focusout_validate w).2 = foreground w;
  key_error : ∀ a (w : Widget C), error (_key_validate a w).2 = error w;
  key_foreground : ∀ a (w : Widget C),
    foreground (_key_validate a w).2 = foreground w
}.

(** The error message and the colour of a widget of the class [C] follow its
    most recent validation call. *)
Definition tracks_last_call (C : Type) `{ValidatedMixin C} : Prop :=
  ∀ (steps : list step) (w : Widget C),
    error w = "" →
    (error (run steps w []).1 ≠ "" ↔ last_call_failed_focusout (run steps w []).2) ∧
    ((run steps w []).2 ≠ [] →
     (foreground (run steps w []).1 = "red"
      ↔ last_call_failed_focusout (run steps w []).2) ∧
     (foreground (run steps w []).1 = "black"
      ↔ ¬ last_call_failed_focusout (run steps w []).2)).

(** A validation call does not depend on the error and the colour that the
    widget had: it starts by clearing them. *)
Definition clears_first (C : Type) `{ValidatedMixin C} : Prop :=
  ∀ (a : Args) (w : Widget C) (msg colour : string),
    _validate a (mkWidget (options w) (text w) msg colour (state w) (cursor w))
    = _validate a (mkWidget (options w) (text w) "" "black" (state w) (cursor w)).

(** A focus-out validation that fails leaves a message and the colour red. *)
Definition failure_shows (C : Type) `{ValidatedMixin C} : Prop :=
  ∀ (a : Args) (w : Widget C),
    event a = "focusout" →
    (validation_event a w).1 = Ok false →
    error (validation_event a w).2 ≠ "" ∧
    foreground (validation_event a w).2 = "red".

(** The three parts of the error state of a class of widgets. *)
Definition error_state_kept (C : Type) `{ValidatedMixin C} : Prop :=
  clears_first C ∧ failure_shows C ∧ tracks_last_call C.

(** The fields of the first match of the pattern, when that match takes the
    whole text. *)
Definition whole_match (matches : list (N * N * N * list ascii))
    : option (N * N * N) :=
  match matches with
  | (y, m, d, []) :: _ => Some (y, m, d)
  | _ => None
  end.

Definition whole_day (matches : list (N * list ascii)) : option N :=
  match matches with
  | (d, []) :: _ => Some d
  | _ => None
  end.

(** ** Sessions

    The user fills the form, so that its variables are [vars], and presses
    Save; an exception that escapes the handler is reported by Tk and the
    session goes on. *)

Module Session.

Definition press `{Tcl} (today : date) (st : Files * Application.t)
    (vars : Dict TkVar) : Files * Application.t :=
  let r :=
    Application._on_save today st.1
      (Application.mk vars (Application.status st.2)
         (Application._records_saved st.2)) in
  (files_after r, state_after r).

Definition run `{Tcl} (today : date) (presses : list (Dict TkVar))
    (st : Files * Application.t) : Files * Application.t :=
  fold_left (press today) presses st.

(** The records of the presses that [get] could read, in order. *)
Definition saved `{Tcl} (presses : list (Dict TkVar)) : list (Dict PyVal) :=
  omap (fun vars =>
          match DataRecordForm.get vars with
          | Ok data => Some data
          | Raise _ => None
          end) presses.

End Session.

(** The keys of a dictionary of variables with the class of each. *)
Definition layout (vars : Dict TkVar) : list (string * VarClass) :=
  map (fun kv => (kv.1, var_class kv.2)) vars.

(** The texts made of the characters that the key rule of the spin box lets
    in; on them [Decimal_of_str] is the constructor of Python. *)
Definition keyed (s : string) : bool :=
  forallb (fun c => str_contains (String c "") "-1234567890.")
    (String.list_ascii_of_string s).

(** ** Typing a date

    The user types a character at the end of the text of a date entry: Tk
    calls the validation with the event [key], the text proposed, the
    character, the index of the insertion and the action ['1'], and inserts
    the character when the verdict is true. *)

Module Typing.

Definition keystroke (self : Widget DateEntry.t) (c : ascii) : Widget DateEntry.t :=
  let proposed := text self +:+ String c "" in
  let a :=
    mkArgs proposed (text self) (String c "") "key"
      (pretty (String.length (text self))) "1" in
  let '(valid, self) := validation_event a self in
  match valid with
  | Ok true => icursor_END (set proposed self)
  | _ => self
  end.

Definition type (keys : list ascii) (self : Widget DateEntry.t) : Widget DateEntry.t :=
  fold_left keystroke keys self.

End Typing.

(** The layout of a date, position by position: a decimal digit at 0, 1, 2,
    3, 5, 6, 8 and 9, a hyphen at 4 and 7, and nothing from 10 on. *)
Definition layout_at (i : nat) (c : ascii) : bool :=
  match i with
  | 4 | 7 => Ascii.eqb c "-"
  | 0 | 1 | 2 | 3 | 5 | 6 | 8 | 9 => is_decimal_char c
  | _ => false
  end%nat.

(** * Properties *)

(** ** The save handlers *)

Lemma write_csv_appends `{Tcl} (fs : Files) name data :
  one_row_appended fs
    (write_csv name (negb (Path_exists name fs)) data fs)
    name (keys data) (values data).
Proof.
  unfold one_row_appended, write_csv, Path_exists. split.
  - rewrite lookup_insert_eq.
    destruct (fs !! name) as [rows|] eqn:E; reflexivity.
  - intros other Hne. by rewrite lookup_insert_ne.
Qed.

Lemma write_csv_changes `{Tcl} (fs : Files) name newfile data :
  write_csv name newfile data fs ≠ fs.
Proof.
  unfold write_csv. intros E.
  assert (L : <[name:=default [] (fs !! name) ++
                 (if newfile then [header_row (keys data)] else []) ++ [values data]]> fs
              !! name = fs !! name) by (by rewrite E).
  rewrite lookup_insert_eq in L.
  destruct (fs !! name) as [rows|] eqn:E'; [|done].
  simpl in L. injection L as L.
  apply (f_equal length) in L. rewrite !length_app in L. simpl in L. lia.
Qed.

(** C2: a successful save appends exactly one data row to the day's file
    [abq_data_record_<%Y-%m-%d>.csv], keeps the rows the file had, and writes
    the header of field names before the row exactly when the file did not
    exist; the name depends on the date alone.  Both handlers. *)
Theorem save_appends_one_row `{Tcl} (today : date) (fs : Files) :
  save_filename today = "abq_data_record_" +:+ strftime_Ymd today +:+ ".csv" ∧
  (∀ self data,
     DataRecordForm.get (Application.recordform self) = Ok data →
     one_row_appended fs (files_after (Application._on_save today fs self))
       (save_filename today) (keys data) (values data)) ∧
  (∀ g data,
     Script.read_form g = Script.Read data →
     one_row_appended fs (files_after (Script.on_save today fs g))
       (save_filename today) (keys data) (values data)).
Proof.
  split; [reflexivity|]. split.
  - intros self data Hget. unfold Application._on_save. rewrite Hget.
    apply write_csv_appends.
  - intros g data Hread. unfold Script.on_save. rewrite Hread.
    apply write_csv_appends.
Qed.

Lemma dict_set_fresh {V} (d : Dict V) k v :
  k ∉ keys d → dict_set d k v = d ++ [(k, v)].
Proof.
  induction d as [|[k' v'] d IH]; simpl; [done|].
  intros Hk. apply not_elem_of_cons in Hk as [Hne Hk].
  destruct (String.eqb_spec k' k); [congruence|]. by rewrite IH.
Qed.

Lemma keys_app {V} (d1 d2 : Dict V) : keys (d1 ++ d2) = keys d1 ++ keys d2.
Proof. apply map_app. Qed.

Section Reading.
Context `{Tcl}.

(** The loop of [get] on a dictionary of distinct keys: the record gets one
    entry for each variable, in order. *)
Lemma get_items_ok fault items : ∀ data0 data,
  NoDup (keys data0 ++ keys items) →
  DataRecordForm.get_items fault items data0 = Ok data →
  ∃ new, data = data0 ++ new ∧ Forall2 (entry_of fault) items new.
Proof.
  induction items as [|[k v] items IH]; simpl; intros data0 data Hnd Hget.
  - exists []. rewrite app_nil_r. split; [congruence|constructor].
  - assert (Hk : k ∉ keys data0).
    { apply NoDup_app in Hnd as (_ & Hd & _). intros Hin.
      apply (Hd k Hin). left. }
    assert (Hnd' : ∀ c, NoDup (keys (data0 ++ [(k, c)]) ++ keys items)).
    { intros c. rewrite keys_app. simpl. rewrite <- app_assoc. exact Hnd. }
    fold (blanked fault k) in Hget.
    destruct (blanked fault k) eqn:Hb.
    + rewrite dict_set_fresh in Hget by done.
      destruct (IH _ _ (Hnd' _) Hget) as (new & -> & HF).
      exists ((k, VStr "") :: new). rewrite <- app_assoc. split; [done|].
      constructor; [|done]. split; [done|]. simpl. by rewrite Hb.
    + destruct (Variable_get v) as [c|e] eqn:Hv; [|by destruct e].
      rewrite dict_set_fresh in Hget by done.
      destruct (IH _ _ (Hnd' _) Hget) as (new & -> & HF).
      exists ((k, c) :: new). rewrite <- app_assoc. split; [done|].
      constructor; [|done]. split; [done|]. simpl. by rewrite Hb.
Qed.

(** The loop returns a record exactly when every variable that it does not
    blank can be read. *)
Lemma get_items_succeeds fault items : ∀ data0,
  (∃ data, DataRecordForm.get_items fault items data0 = Ok data)
  ↔ Forall (reads fault) items.
Proof.
  induction items as [|[k v] items IH]; simpl; intros data0.
  - split; [constructor|eauto].
  - fold (blanked fault k). destruct (blanked fault k) eqn:Hb.
    + rewrite IH. split.
      * intros HF. constructor; [by left|done].
      * by inversion 1.
    + destruct (Variable_get v) as [c|e] eqn:Hv.
      * rewrite IH. split.
        -- intros HF. constructor; [right; eauto|done].
        -- by inversion 1.
      * split.
        -- intros [data Hd]. by destruct e.
        -- inversion 1 as [|? ? [Hr|[c Hr]] ?]; simpl in *; congruence.
Qed.

(** The loop stops at the first variable whose read raises [TclError]. *)
Lemma get_items_TclError fault pre key v post : ∀ data0,
  Forall (reads fault) pre →
  blanked fault key = false →
  Variable_get v = Raise TclError →
  DataRecordForm.get_items fault (pre ++ (key, v) :: post) data0
  = Raise (ValueError ("Error in field: " +:+ key +:+ ". Data is not saved!")).
Proof.
  induction pre as [|[k u] pre IH]; simpl; intros data0 Hpre Hb Hv.
  - fold (blanked fault key). by rewrite Hb, Hv.
  - fold (blanked fault k). inversion Hpre as [|? ? Hr Hpre']; subst.
    destruct (blanked fault k) eqn:Hbk; [by apply IH|].
    destruct Hr as [Hr|[c Hr]]; simpl in Hr; [congruence|].
    rewrite Hr. by apply IH.
Qed.

(** The script's loop is the same loop, with its own report of a failed read. *)
Lemma read_items_get_items fault items : ∀ data0,
  Script.read_items fault items data0 =
  match DataRecordForm.get_items fault items data0 with
  | Ok data => Script.Read data
  | Raise e =>
      match Script.read_items fault items data0 with
      | Script.Read data => Script.Escaped e
      | o => o
      end
  end.
Proof.
  induction items as [|[k v] items IH]; simpl; intros data0; [done|].
  destruct (fault && str_in k environmental); [apply IH|].
  destruct (Variable_get v) as [c|e]; [apply IH|]. by destruct e.
Qed.

Lemma read_items_ok fault items data0 data :
  Script.read_items fault items data0 = Script.Read data
  ↔ DataRecordForm.get_items fault items data0 = Ok data.
Proof.
  rewrite read_items_get_items.
  destruct (DataRecordForm.get_items fault items data0) as [d|e].
  - split; congruence.
  - destruct (Script.read_items fault items data0); split; congruence.
Qed.

Lemma read_items_TclError fault pre key v post : ∀ data0,
  Forall (reads fault) pre →
  blanked fault key = false →
  Variable_get v = Raise TclError →
  Script.read_items fault (pre ++ (key, v) :: post) data0 = Script.FieldError key.
Proof.
  induction pre as [|[k u] pre IH]; simpl; intros data0 Hpre Hb Hv.
  - fold (blanked fault key). by rewrite Hb, Hv.
  - fold (blanked fault k). inversion Hpre as [|? ? Hr Hpre']; subst.
    destruct (blanked fault k) eqn:Hbk; [by apply IH|].
    destruct Hr as [Hr|[c Hr]]; simpl in Hr; [congruence|].
    rewrite Hr. by apply IH.
Qed.

End Reading.

Lemma same_but_environmental_get vars vars' k :
  same_but_environmental vars vars' →
  str_in k environmental = false →
  dict_get vars k = dict_get vars' k.
Proof.
  induction 1 as [|[k1 v1] [k2 v2] vars vars' [Hk Hv] HF IH]; [done|].
  simpl in *. intros Hne. subst k2.
  destruct (String.eqb_spec k1 k) as [->|]; [|by apply IH].
  by rewrite Hv.
Qed.

Lemma get_items_under_fault `{Tcl} vars vars' :
  same_but_environmental vars vars' →
  ∀ data0, DataRecordForm.get_items true vars data0
           = DataRecordForm.get_items true vars' data0.
Proof.
  induction 1 as [|[k1 v1] [k2 v2] vars vars' [Hk Hv] HF IH]; [done|].
  simpl in *. intros data0. subst k2.
  destruct (str_in k1 environmental) eqn:E; [apply IH|].
  rewrite <- Hv by done. destruct (Variable_get v1) as [c|e]; [apply IH|done].
Qed.

Lemma read_items_under_fault `{Tcl} vars vars' :
  same_but_environmental vars vars' →
  ∀ data0, Script.read_items true vars data0 = Script.read_items true vars' data0.
Proof.
  induction 1 as [|[k1 v1] [k2 v2] vars vars' [Hk Hv] HF IH]; [done|].
  simpl in *. intros data0. subst k2.
  destruct (str_in k1 environmental) eqn:E; [apply IH|].
  rewrite <- Hv by done. destruct (Variable_get v1) as [c|e]; [apply IH|done].
Qed.

(** C9: with the Equipment Fault box checked the record holds the empty string
    for Light, Humidity and Temperature, whatever their variables hold, and
    the value of its variable for every other field; with the box unchecked
    every field holds the value of its variable.  The script adds the notes,
    which it reads from the text widget. *)
Theorem fault_blanks_environmental `{Tcl} (vars : Dict TkVar) (fv : TkVar) (f : PyVal) :
  NoDup (keys vars) →
  dict_get vars "Equipment Fault" = Some fv →
  Variable_get fv = Ok f →
  (∀ data, DataRecordForm.get vars = Ok data →
     Forall2 (fun kv kc =>
                kc.1 = kv.1 ∧
                if truth f && str_in kv.1 environmental
                then kc.2 = VStr "" else Variable_get kv.2 = Ok kc.2)
       vars data) ∧
  (∀ notes status n data,
     Script.read_form (Script.mk vars notes status n) = Script.Read data →
     ∃ data0,
       data = dict_set data0 "Notes" (VStr (notes +:+ "
")) ∧
       Forall2 (fun kv kc =>
                  kc.1 = kv.1 ∧
                  if truth f && str_in kv.1 environmental
                  then kc.2 = VStr "" else Variable_get kv.2 = Ok kc.2)
         vars data0) ∧
  (truth f = true →
   ∀ vars', same_but_environmental vars vars' →
     DataRecordForm.get vars' = DataRecordForm.get vars ∧
     ∀ notes status n,
       Script.read_form (Script.mk vars' notes status n)
       = Script.read_form (Script.mk vars notes status n)).
Proof.
  intros Hnd Hfv Hf. split; [|split].
  - intros data. unfold DataRecordForm.get, dict_item. rewrite Hfv. simpl.
    rewrite Hf. simpl. intros Hget.
    destruct (get_items_ok _ _ [] data Hnd Hget) as (new & -> & HF). exact HF.
  - intros notes status n data. unfold Script.read_form, dict_item. simpl.
    rewrite Hfv. simpl. rewrite Hf.
    destruct (Script.read_items (truth f) vars []) as [d| |] eqn:Hr; try done.
    intros [= <-]. apply read_items_ok in Hr.
    destruct (get_items_ok _ _ [] d Hnd Hr) as (new & -> & HF).
    exists new. split; [done|exact HF].
  - intros Ht vars' Hsame.
    assert (Hfv' : dict_get vars' "Equipment Fault" = Some fv).
    { rewrite <- (same_but_environmental_get vars vars') by done. done. }
    split.
    + unfold DataRecordForm.get, dict_item. rewrite Hfv, Hfv'. simpl.
      rewrite Hf. simpl. rewrite Ht. symmetry. by apply get_items_under_fault.
    + intros notes status n. unfold Script.read_form, dict_item. simpl.
      rewrite Hfv, Hfv'. simpl. rewrite Hf, Ht.
      by rewrite (read_items_under_fault vars vars' Hsame).
Qed.

Lemma get_succeeds `{Tcl} (vars : Dict TkVar) :
  (∃ data, DataRecordForm.get vars = Ok data) ↔ all_readable vars.
Proof.
  unfold DataRecordForm.get, dict_item, all_readable.
  destruct (dict_get vars "Equipment Fault") as [fv|]; simpl.
  - destruct (Variable_get fv) as [f|e] eqn:Hf; simpl.
    + rewrite get_items_succeeds. split.
      * intros HF. by exists fv, f.
      * intros (fv' & f' & Hfv' & Hf' & HF).
        injection Hfv' as <-. rewrite Hf in Hf'. by injection Hf' as <-.
    + split; [by intros [? ?]|].
      intros (fv' & f' & Hfv' & Hf' & _).
      injection Hfv' as <-. by rewrite Hf in Hf'.
  - split; [by intros [? ?]|]. by intros (? & ? & ? & _).
Qed.

Lemma read_form_succeeds `{Tcl} (g : Script.t) :
  (∃ data, Script.read_form g = Script.Read data) ↔ all_readable (Script.variables g).
Proof.
  rewrite <- get_succeeds.
  unfold Script.read_form, DataRecordForm.get, dict_item.
  destruct (dict_get (Script.variables g) "Equipment Fault") as [fv|]; simpl;
    [|split; by intros [? ?]].
  destruct (Variable_get fv) as [f|e]; simpl; [|split; by intros [? ?]].
  rewrite read_items_get_items.
  destruct (DataRecordForm.get_items (truth f) (Script.variables g) []) as [d|e];
    [split; eauto|].
  split; [|by intros [? ?]].
  destruct (Script.read_items (truth f) (Script.variables g) []); by intros [? ?].
Qed.

(** C1, as the code has it: the Save handler writes a record exactly when
    every variable that it reads can be read (the fault flag and each variable
    that the flag does not blank); the validation rules of the fields are not
    consulted.  Both handlers. *)
Theorem save_gated_on_reads `{Tcl} (today : date) (fs : Files) :
  (∀ self, files_after (Application._on_save today fs self) ≠ fs
           ↔ all_readable (Application.recordform self)) ∧
  (∀ g, files_after (Script.on_save today fs g) ≠ fs
        ↔ all_readable (Script.variables g)).
Proof.
  split.
  - intros self. rewrite <- get_succeeds. unfold Application._on_save.
    destruct (DataRecordForm.get (Application.recordform self)) as [d|e].
    + split; [eauto|]. intros _. apply write_csv_changes.
    + split; [|by intros [? ?]]. by destruct e.
  - intros g. rewrite <- read_form_succeeds. unfold Script.on_save.
    destruct (Script.read_form g) as [d|k|e].
    + split; [eauto|]. intros _. apply write_csv_changes.
    + split; [done|by intros [? ?]].
    + split; [done|by intros [? ?]].
Qed.

(** C1 fails as stated: the Technician entry is empty, which its focus-out
    rule refuses, and the handler writes the record all the same. *)
Lemma save_ignores_validity :
  Inputs.all_valid (Examples.filled "" "7") = false ∧
  Inputs.all_valid (Examples.filled "J Simms" "7") = true ∧
  files_after (Application._on_save Examples.today ∅
                 (Application.mk (Examples.filled "" "7") "" 0))
    !! "abq_data_record_2026-11-03.csv"
  = Some [header_row (keys (Examples.filled "" "7"));
          [VStr "2026-11-03"; VStr "8:00"; VStr ""; VStr "A"; VInt 7;
           VStr "AX477"; VFloat (Finite (245 # 10)); VFloat (Finite (125 # 100));
           VFloat (Finite (221 # 10)); VBool false; VInt 9; VInt 21; VInt 3;
           VFloat (Finite (15 # 10)); VFloat (Finite (2025 # 100));
           VFloat (Finite (11 # 1)); VStr ""]].
Proof. split; [reflexivity|]. split; reflexivity. Qed.

(** C10: when the read of a variable raises [TclError] the handler stops
    before it opens the file: the files, the counter and the variables of the
    form are as before, and the status names the field.  Both handlers. *)
Theorem save_stops_on_read_error `{Tcl} (today : date) (fs : Files)
    (pre post : Dict TkVar) (key : string) (v fv : TkVar) (f : PyVal) :
  dict_get (pre ++ (key, v) :: post) "Equipment Fault" = Some fv →
  Variable_get fv = Ok f →
  Forall (reads (truth f)) pre →
  blanked (truth f) key = false →
  Variable_get v = Raise TclError →
  (∀ status n,
     Application._on_save today fs
       (Application.mk (pre ++ (key, v) :: post) status n)
     = (None, fs,
        Application.mk (pre ++ (key, v) :: post)
          ("Error in field: " +:+ key +:+ ". Data is not saved!") n)) ∧
  (∀ notes status n,
     Script.on_save today fs (Script.mk (pre ++ (key, v) :: post) notes status n)
     = (None, fs,
        Script.mk (pre ++ (key, v) :: post) notes
          ("Error in field: " +:+ key +:+ ". Data was not saved!") n)).
Proof.
  intros Hfv Hf Hpre Hb Hv. split.
  - intros status n. unfold Application._on_save, DataRecordForm.get, dict_item.
    simpl. rewrite Hfv. simpl. rewrite Hf. simpl.
    by rewrite get_items_TclError.
  - intros notes status n. unfold Script.on_save, Script.read_form, dict_item.
    simpl. rewrite Hfv. simpl. rewrite Hf.
    by rewrite read_items_TclError.
Qed.

Lemma save_appends_one_row_witness :
  ∃ data,
    DataRecordForm.get (Examples.filled "J Simms" "7") = Ok data ∧
    one_row_appended ∅
      (files_after (Application._on_save Examples.today ∅
                      (Application.mk (Examples.filled "J Simms" "7") "" 0)))
      "abq_data_record_2026-11-03.csv" (keys data) (values data).
Proof.
  eexists. split; [reflexivity|].
  apply (proj1 (proj2 (save_appends_one_row Examples.today ∅))
           (Application.mk (Examples.filled "J Simms" "7") "" 0)).
  reflexivity.
Defined.

Lemma fault_blanks_environmental_witness :
  NoDup (keys Examples.faulty) ∧
  dict_get Examples.faulty "Equipment Fault" = Some (mkVar BooleanVar "1") ∧
  Variable_get (mkVar BooleanVar "1") = Ok (VBool true) ∧
  DataRecordForm.get Examples.faulty
  = Ok [("Date", VStr "2026-11-03"); ("Light", VStr "");
        ("Equipment Fault", VBool true); ("Plants", VInt 9)] ∧
  Forall2 (fun kv kc =>
             kc.1 = kv.1 ∧
             if truth (VBool true) && str_in kv.1 environmental
             then kc.2 = VStr "" else Variable_get kv.2 = Ok kc.2)
    Examples.faulty
    [("Date", VStr "2026-11-03"); ("Light", VStr "");
     ("Equipment Fault", VBool true); ("Plants", VInt 9)].
Proof.
  assert (Hnd : NoDup (keys Examples.faulty)).
  { apply (bool_decide_unpack (NoDup _)). vm_compute. exact I. }
  split; [exact Hnd|]. split; [reflexivity|]. split; [reflexivity|].
  split; [reflexivity|].
  apply (proj1 (fault_blanks_environmental Examples.faulty (mkVar BooleanVar "1")
                  (VBool true) Hnd ltac:(reflexivity) ltac:(reflexivity))).
  reflexivity.
Defined.

Lemma save_stops_on_read_error_witness :
  Examples.filled "J Simms" ""
  = [("Date", mkVar StringVar "2026-11-03"); ("Time", mkVar StringVar "8:00");
     ("Technician", mkVar StringVar "J Simms"); ("Lab", mkVar StringVar "A")]
    ++ ("Plot", mkVar IntVar "") :: drop 5 (Examples.filled "J Simms" "") ∧
  Variable_get (mkVar IntVar "") = Raise TclError ∧
  Application._on_save Examples.today ∅
    (Application.mk (Examples.filled "J Simms" "") "" 4)
  = (None, ∅,
     Application.mk (Examples.filled "J Simms" "")
       "Error in field: Plot. Data is not saved!" 4).
Proof.
  split; [reflexivity|]. split; [reflexivity|].
  refine (proj1 (save_stops_on_read_error Examples.today ∅
            [("Date", mkVar StringVar "2026-11-03"); ("Time", mkVar StringVar "8:00");
             ("Technician", mkVar StringVar "J Simms"); ("Lab", mkVar StringVar "A")]
            (drop 5 (Examples.filled "J Simms" "")) "Plot" (mkVar IntVar "")
            (mkVar BooleanVar "0") (VBool false) _ _ _ _ _) "" 4).
  - reflexivity.
  - reflexivity.
  - repeat (constructor 2; [right; eexists; reflexivity|]). constructor 1.
  - reflexivity.
  - reflexivity.
Defined.

(** ** The validation framework *)

(** C3: [_validate] dispatches on the event.  On a widget that is not
    disabled a focus-out event is decided by the focus-out rule of the class,
    a key event by its key rule, and any other event is accepted; on a
    disabled widget every call returns valid.  In each case the call first
    clears the error and sets the foreground to black. *)
Theorem validate_dispatch `{ValidatedMixin C} (a : Args) (self : Widget C) :
  let cleared := _toggle_error false (error_set "" self) in
  (state self = DISABLED → _validate a self = (Ok true, cleared)) ∧
  (state self ≠ DISABLED → event a = "focusout" →
   _validate a self = _focusout_validate cleared) ∧
  (state self ≠ DISABLED → event a = "key" →
   _validate a self = _key_validate a cleared) ∧
  (state self ≠ DISABLED → event a ≠ "focusout" → event a ≠ "key" →
   _validate a self = (Ok true, cleared)).
Proof.
  intros cleared. unfold _validate. fold cleared.
  assert (Hs : state cleared = state self) by done. rewrite Hs.
  split; [|split; [|split]].
  - intros ->. done.
  - intros Hd ->. by destruct (String.eqb_spec (state self) DISABLED).
  - intros Hd ->. by destruct (String.eqb_spec (state self) DISABLED).
  - intros Hd Hf Hk.
    destruct (String.eqb_spec (state self) DISABLED); [done|].
    destruct (String.eqb_spec (event a) "focusout"); [done|].
    by destruct (String.eqb_spec (event a) "key").
Qed.

Lemma validate_dispatch_witness :
  _validate (Examples.insertion "" "x" "0" "x")
    (mkWidget RequiredEntry.new "" "old" "red" DISABLED 0)
  = (Ok true, mkWidget RequiredEntry.new "" "" "black" DISABLED 0) ∧
  _validate Examples.focusout (mkWidget RequiredEntry.new "" "old" "red" NORMAL 0)
  = (Ok false, mkWidget RequiredEntry.new "" "A value is required" "black" NORMAL 0) ∧
  _validate (Examples.insertion "" "x" "0" "x")
    (mkWidget DateEntry.new "" "old" "red" NORMAL 0)
  = (Ok false, mkWidget DateEntry.new "" "" "black" NORMAL 0) ∧
  _validate (mkArgs "" "" "" "focusin" "-1" "-1")
    (mkWidget DateEntry.new "" "old" "red" NORMAL 0)
  = (Ok true, mkWidget DateEntry.new "" "" "black" NORMAL 0).
Proof.
  split; [|split; [|split]].
  - apply (proj1 (validate_dispatch (Examples.insertion "" "x" "0" "x")
                    (mkWidget RequiredEntry.new "" "old" "red" DISABLED 0))).
    reflexivity.
  - rewrite (proj1 (proj2 (validate_dispatch Examples.focusout
                    (mkWidget RequiredEntry.new "" "old" "red" NORMAL 0))));
      [reflexivity|discriminate|reflexivity].
  - rewrite (proj1 (proj2 (proj2 (validate_dispatch (Examples.insertion "" "x" "0" "x")
                    (mkWidget DateEntry.new "" "old" "red" NORMAL 0)))));
      [reflexivity|discriminate|reflexivity].
  - apply (proj2 (proj2 (proj2 (validate_dispatch (mkArgs "" "" "" "focusin" "-1" "-1")
                    (mkWidget DateEntry.new "" "old" "red" NORMAL 0)))));
      discriminate.
Defined.

(** The stand-alone date entry dispatches on the event in the same way, with
    its rules written in place; it does not look at the state. *)
Lemma standalone_validate_dispatch (a : Args) (self : Widget StandaloneDateEntry.t) :
  let cleared := StandaloneDateEntry._toggle_error "" self in
  (event a = "key" →
   (StandaloneDateEntry._validate a self).1
   = (DateEntry._key_validate a (Inputs.widget DateEntry.new (text self))).1) ∧
  (event a = "focusout" →
   (StandaloneDateEntry._validate a self).1
   = match strptime_Ymd (text self) with
     | Ok _ => Ok true
     | Raise (ValueError _) => Ok false
     | Raise e => Raise e
     end) ∧
  (event a ≠ "key" → event a ≠ "focusout" →
   StandaloneDateEntry._validate a self = (Ok true, cleared)).
Proof.
  intros cleared. unfold StandaloneDateEntry._validate. fold cleared.
  split; [|split].
  - intros ->. simpl. unfold DateEntry._key_validate.
    repeat case_match; done.
  - intros ->. simpl. destruct (strptime_Ymd (text self)) as [d|[]]; done.
  - intros Hk Hf.
    destruct (String.eqb_spec (event a) "key"); [done|].
    by destruct (String.eqb_spec (event a) "focusout").
Qed.

(** ** The combo box *)

(** C7: the key rule of [ValidatedCombobox].  A deletion empties the widget
    and is accepted.  An insertion is refused when no value of the list starts
    with the proposed text, case set apart; when one value alone does, the
    widget takes that value, the cursor goes to its end, and the keystroke is
    refused; when two or more do, the keystroke is accepted.  On focus-out an
    empty widget is invalid, with the error 'A value is required'. *)
Theorem combobox_rules (a : Args) (self : Widget ValidatedCombobox.t) :
  (action a = "0" →
   ValidatedCombobox._key_validate a self = (Ok true, set "" self)
   ∧ text (set "" self) = "") ∧
  (action a ≠ "0" →
   (∀ x, x ∈ ValidatedCombobox.values (options self) →
         startswith (lower x) (lower (proposed a)) = false) →
   ValidatedCombobox._key_validate a self = (Ok false, self)) ∧
  (action a ≠ "0" →
   ∀ x, ValidatedCombobox.matching self (proposed a) = [x] →
   x ∈ ValidatedCombobox.values (options self) ∧
   startswith (lower x) (lower (proposed a)) = true ∧
   ValidatedCombobox._key_validate a self
   = (Ok false,
      mkWidget (options self) x (error self) (foreground self) (state self)
        (String.length x))) ∧
  (action a ≠ "0" →
   (2 ≤ length (ValidatedCombobox.matching self (proposed a)))%nat →
   ValidatedCombobox._key_validate a self = (Ok true, self)) ∧
  (text self = "" →
   ValidatedCombobox._focusout_validate self
   = (Ok false, error_set "A value is required" self)).
Proof.
  unfold ValidatedCombobox._key_validate, ValidatedCombobox._focusout_validate.
  split; [|split; [|split; [|split]]].
  - intros ->. done.
  - intros Ha Hnone. destruct (String.eqb_spec (action a) "0"); [done|].
    assert (E : ValidatedCombobox.matching self (proposed a) = []).
    { unfold ValidatedCombobox.matching.
      induction (ValidatedCombobox.values (options self)) as [|x l IH]; [done|].
      simpl. rewrite (Hnone x) by left.
      apply IH. intros y Hy. apply Hnone. by right. }
    by rewrite E.
  - intros Ha x Hx. destruct (String.eqb_spec (action a) "0"); [done|].
    rewrite Hx. split; [|split; [|done]].
    + assert (Hin : x ∈ ValidatedCombobox.matching self (proposed a))
        by (rewrite Hx; left).
      unfold ValidatedCombobox.matching in Hin.
      apply list_elem_of_In, filter_In in Hin as [Hin _].
      by apply list_elem_of_In.
    + assert (Hin : x ∈ ValidatedCombobox.matching self (proposed a))
        by (rewrite Hx; left).
      unfold ValidatedCombobox.matching in Hin.
      by apply list_elem_of_In, filter_In in Hin as [_ Hin].
  - intros Ha Hlen. destruct (String.eqb_spec (action a) "0"); [done|].
    destruct (ValidatedCombobox.matching self (proposed a)) as [|x [|y l]];
      simpl in Hlen; [lia|lia|done].
  - intros ->. done.
Qed.

Lemma combobox_rules_witness :
  ValidatedCombobox._key_validate (Examples.deletion "8:00" "0" "3" "8:0")
    (Examples.time_combobox "8:00")
  = (Ok true, Examples.time_combobox "") ∧
  ValidatedCombobox._key_validate (Examples.insertion "" "x" "0" "x")
    (Examples.time_combobox "")
  = (Ok false, Examples.time_combobox "") ∧
  ValidatedCombobox._key_validate (Examples.insertion "" "8" "0" "8")
    (Examples.time_combobox "")
  = (Ok false,
     mkWidget (ValidatedCombobox.new ["8:00"; "12:00"; "16:00"; "20:00"])
       "8:00" "" "" NORMAL 4) ∧
  ValidatedCombobox._key_validate (Examples.insertion "" "1" "0" "1")
    (Examples.time_combobox "")
  = (Ok true, Examples.time_combobox "") ∧
  ValidatedCombobox._focusout_validate (Examples.time_combobox "")
  = (Ok false, error_set "A value is required" (Examples.time_combobox "")).
Proof.
  split; [|split; [|split; [|split]]].
  - apply (proj1 (combobox_rules (Examples.deletion "8:00" "0" "3" "8:0")
                    (Examples.time_combobox "8:00"))). reflexivity.
  - apply (proj1 (proj2 (combobox_rules (Examples.insertion "" "x" "0" "x")
                           (Examples.time_combobox "")))); [discriminate|].
    intros x Hx. simpl in Hx.
    repeat (apply elem_of_cons in Hx as [->|Hx]; [reflexivity|]).
    by apply elem_of_nil in Hx.
  - apply (proj1 (proj2 (proj2 (combobox_rules (Examples.insertion "" "8" "0" "8")
                                  (Examples.time_combobox ""))))); [discriminate|].
    reflexivity.
  - apply (proj1 (proj2 (proj2 (proj2 (combobox_rules (Examples.insertion "" "1" "0" "1")
                                  (Examples.time_combobox "")))))); [discriminate|].
    simpl. lia.
  - apply (proj2 (proj2 (proj2 (proj2 (combobox_rules Examples.focusout
                                  (Examples.time_combobox "")))))). reflexivity.
Defined.

(** ** The date entry *)

Lemma isdigit_char_ascii (c : ascii) :
  (code c < 128)%N → isdigit_char c = is_decimal_char c.
Proof.
  unfold isdigit_char, is_decimal_char. intros Hc.
  destruct (N.eqb_spec (code c) 178); [lia|].
  destruct (N.eqb_spec (code c) 179); [lia|].
  destruct (N.eqb_spec (code c) 185); [lia|].
  by rewrite !orb_false_r.
Qed.

Lemma isdigit_one (c : ascii) : isdigit (String c "") = isdigit_char c.
Proof. unfold isdigit. simpl. by rewrite andb_true_r. Qed.

Lemma str_in_positions (i : string) :
  str_in i ["0"; "1"; "2"; "3"; "5"; "6"; "8"; "9"] = true →
  str_in i ["4"; "7"] = false.
Proof.
  unfold str_in. simpl.
  destruct (String.eqb_spec i "0") as [->|]; [intros _; reflexivity|].
  destruct (String.eqb_spec i "1") as [->|]; [intros _; reflexivity|].
  destruct (String.eqb_spec i "2") as [->|]; [intros _; reflexivity|].
  destruct (String.eqb_spec i "3") as [->|]; [intros _; reflexivity|].
  destruct (String.eqb_spec i "5") as [->|]; [intros _; reflexivity|].
  destruct (String.eqb_spec i "6") as [->|]; [intros _; reflexivity|].
  destruct (String.eqb_spec i "8") as [->|]; [intros _; reflexivity|].
  destruct (String.eqb_spec i "9") as [->|]; [intros _; reflexivity|].
  simpl. discriminate.
Qed.

Lemma hyphen_one (c : ascii) : String.eqb (String c "") "-" = Ascii.eqb c "-".
Proof. simpl. by destruct (Ascii.eqb c "-"). Qed.

(** On the ASCII characters the key rule of [DateEntry] is the rule of C5: a
    deletion is accepted, and an insertion exactly when it is a decimal digit
    at a digit position or a hyphen at 4 or 7. *)
Lemma date_key_rule_ascii (a : Args) (self : Widget DateEntry.t) (c : ascii) :
  char a = String c "" → (code c < 128)%N →
  DateEntry._key_validate a self
  = (Ok (if String.eqb (action a) "0" then true else iso_keystroke c (index a)),
     self).
Proof.
  intros Hc Hascii. unfold DateEntry._key_validate, iso_keystroke.
  destruct (String.eqb (action a) "0"); [done|].
  rewrite Hc, isdigit_one, isdigit_char_ascii, hyphen_one by done.
  destruct (str_in (index a) ["0"; "1"; "2"; "3"; "5"; "6"; "8"; "9"]) eqn:E.
  - rewrite (str_in_positions _ E).
    by destruct (is_decimal_char c), (Ascii.eqb c "-").
  - by destruct (str_in (index a) ["4"; "7"]), (is_decimal_char c),
         (Ascii.eqb c "-").
Qed.

Lemma pretty_nat_not (n m : nat) : n ≠ m → String.eqb (pretty n) (pretty m) = false.
Proof.
  intros Hne. destruct (String.eqb_spec (pretty n) (pretty m)) as [E|]; [|done].
  by apply (inj pretty) in E.
Qed.

(** An insertion at the index 10 or beyond is refused. *)
Lemma date_key_rule_beyond (a : Args) (self : Widget DateEntry.t) (n : nat) :
  index a = pretty n → (10 ≤ n)%nat → action a ≠ "0" →
  DateEntry._key_validate a self = (Ok false, self).
Proof.
  intros Hi Hn Ha. unfold DateEntry._key_validate.
  destruct (String.eqb_spec (action a) "0"); [done|].
  assert (E : ∀ m : nat, (m < 10)%nat → String.eqb (index a) (pretty m) = false).
  { intros m Hm. rewrite Hi. apply pretty_nat_not. lia. }
  assert (E' : ∀ s, (∃ m : nat, (m < 10)%nat ∧ pretty m = s) →
                    String.eqb (index a) s = false).
  { intros s (m & Hm & <-). by apply E. }
  unfold str_in. simpl.
  rewrite (E' "0"), (E' "1"), (E' "2"), (E' "3"), (E' "4"), (E' "5"),
    (E' "6"), (E' "7"), (E' "8"), (E' "9").
  - done.
  - exists 9%nat. split; [lia|reflexivity].
  - exists 8%nat. split; [lia|reflexivity].
  - exists 7%nat. split; [lia|reflexivity].
  - exists 6%nat. split; [lia|reflexivity].
  - exists 5%nat. split; [lia|reflexivity].
  - exists 4%nat. split; [lia|reflexivity].
  - exists 3%nat. split; [lia|reflexivity].
  - exists 2%nat. split; [lia|reflexivity].
  - exists 1%nat. split; [lia|reflexivity].
  - exists 0%nat. split; [lia|reflexivity].
Qed.

(** C5 fails on the code: the key rule tests [char.isdigit()], which holds of
    the superscript two, a character that is not a decimal digit; the rule
    accepts it at the index 0, in the class version and in the stand-alone
    entry. *)
Theorem date_key_accepts_superscript (self : Widget DateEntry.t)
    (alone : Widget StandaloneDateEntry.t) :
  forallb is_decimal_char (String.list_ascii_of_string Examples.superscript_two)
  = false ∧
  iso_keystroke "178" "0" = false ∧
  DateEntry._key_validate
    (Examples.insertion "" Examples.superscript_two "0" Examples.superscript_two)
    self
  = (Ok true, self) ∧
  (StandaloneDateEntry._validate
     (Examples.insertion "" Examples.superscript_two "0" Examples.superscript_two)
     alone).1
  = Ok true.
Proof. repeat split. Qed.

(** *** The focus-out rule and [strptime] *)

Ltac bool_true := rewrite ?andb_true_iff, ?N.leb_le; lia.
Ltac bool_false := rewrite ?andb_false_iff, ?N.leb_gt; lia.

Lemma is_decimal_char_range (c : ascii) :
  is_decimal_char c = true ↔ (48 ≤ code c ≤ 57)%N.
Proof. unfold is_decimal_char. rewrite andb_true_iff, !N.leb_le. done. Qed.

(** A month written with two digits is read by one of the first two forms
    of the pattern. *)
Lemma re_m_two_digits (m1 m2 : ascii) (r : list ascii) :
  is_decimal_char m1 = true → is_decimal_char m2 = true →
  (1 ≤ digits_value 0 [m1; m2] ≤ 12)%N →
  ∃ more, re_m (m1 :: m2 :: r) = (digits_value 0 [m1; m2], r) :: more.
Proof.
  rewrite !is_decimal_char_range. unfold re_m, re_two, re_one, in_range.
  simpl. unfold digit_value.
  generalize (code m1) (code m2). intros n1 n2 H1 H2 Hm.
  destruct (decide (n1 = 49%N)) as [->|Hn1].
  - assert (E : ((49 <=? 49) && (49 <=? 49) && ((48 <=? n2) && (n2 <=? 50)))%N = true)
      by bool_true.
    rewrite E. simpl. eauto.
  - assert (E : ((49 <=? n1) && (n1 <=? 49) && ((48 <=? n2) && (n2 <=? 50)))%N = false)
      by bool_false.
    assert (E' : ((48 <=? n1) && (n1 <=? 48) && ((49 <=? n2) && (n2 <=? 57)))%N = true)
      by bool_true.
    rewrite E, E'. simpl. eauto.
Qed.

(** A day written with two digits is read by one of the first three forms. *)
Lemma re_d_two_digits (d1 d2 : ascii) :
  is_decimal_char d1 = true → is_decimal_char d2 = true →
  (1 ≤ digits_value 0 [d1; d2] ≤ 31)%N →
  ∃ more, re_d [d1; d2] = (digits_value 0 [d1; d2], []) :: more.
Proof.
  rewrite !is_decimal_char_range. unfold re_d, re_two, re_one, in_range.
  simpl. unfold digit_value.
  generalize (code d1) (code d2). intros n1 n2 H1 H2 Hd.
  destruct (decide (n1 = 51%N)) as [->|Hn3].
  { assert (E : ((51 <=? 51) && (51 <=? 51) && ((48 <=? n2) && (n2 <=? 49)))%N = true)
      by bool_true.
    rewrite E. simpl. eauto. }
  assert (E3 : ((51 <=? n1) && (n1 <=? 51) && ((48 <=? n2) && (n2 <=? 49)))%N = false)
    by bool_false.
  rewrite E3. simpl.
  destruct (decide (n1 = 48%N)) as [->|Hn0].
  - assert (E : ((49 <=? 48) && (48 <=? 50) && ((48 <=? n2) && (n2 <=? 57)))%N = false)
      by bool_false.
    assert (E' : ((48 <=? 48) && (48 <=? 48) && ((49 <=? n2) && (n2 <=? 57)))%N = true)
      by bool_true.
    rewrite E, E'. simpl. eauto.
  - assert (E : ((49 <=? n1) && (n1 <=? 50) && ((48 <=? n2) && (n2 <=? 57)))%N = true)
      by bool_true.
    rewrite E. simpl. eauto.
Qed.

Lemma days_in_month_le (y m : N) : (days_in_month y m ≤ 31)%N.
Proof.
  unfold days_in_month. repeat case_match; lia.
Qed.

(** Every text laid out as C6 words it passes [strptime]. *)
Lemma iso_date_text_parses (s : string) :
  iso_date_text s = true → ∃ d, strptime_Ymd s = Ok d.
Proof.
  unfold iso_date_text, strptime_Ymd.
  destruct (String.list_ascii_of_string s)
    as [|y1 [|y2 [|y3 [|y4 [|h1 [|m1 [|m2 [|h2 [|d1 [|d2 [|]]]]]]]]]]]; try done.
  rewrite !andb_true_iff.
  intros [[[HF Hh1] Hh2] Hdate].
  apply Ascii.eqb_eq in Hh1, Hh2. subst h1 h2.
  cbn [forallb] in HF. rewrite ?andb_true_iff in HF.
  destruct HF as (Hy1 & Hy2 & Hy3 & Hy4 & Hm1 & Hm2 & Hd1 & Hd2 & _).
  cbv zeta in Hdate. rewrite ?andb_true_iff, ?N.leb_le in Hdate.
  destruct Hdate as ((((Hy & Hm) & Hm') & Hd) & Hd').
  pose proof (days_in_month_le (digits_value 0 [y1; y2; y3; y4])
                (digits_value 0 [m1; m2])) as Hdim.
  destruct (re_m_two_digits m1 m2 ("-"%char :: [d1; d2]) Hm1 Hm2) as [mm Em];
    [lia|].
  destruct (re_d_two_digits d1 d2 Hd1 Hd2) as [dm Ed]; [lia|].
  unfold re_Ymd, re_Y. cbn [forallb]. rewrite Hy1, Hy2, Hy3, Hy4.
  cbn -[digits_value re_m re_d datetime]. rewrite Em.
  cbn -[digits_value re_m re_d datetime]. rewrite Ed.
  cbn -[digits_value re_m re_d datetime].
  unfold datetime.
  assert (Hy9 : (digits_value 0 [y1; y2; y3; y4] ≤ 9999)%N).
  { apply is_decimal_char_range in Hy1, Hy2, Hy3, Hy4.
    simpl. unfold digit_value. lia. }
  assert (E1 : ((1 <=? digits_value 0 [y1; y2; y3; y4])
                && (digits_value 0 [y1; y2; y3; y4] <=? 9999))%N = true)
    by bool_true.
  assert (E2 : ((1 <=? digits_value 0 [m1; m2])
                && (digits_value 0 [m1; m2] <=? 12))%N = true)
    by bool_true.
  assert (E3 : ((1 <=? digits_value 0 [d1; d2])
                && (digits_value 0 [d1; d2]
                    <=? days_in_month (digits_value 0 [y1; y2; y3; y4])
                          (digits_value 0 [m1; m2])))%N = true)
    by bool_true.
  rewrite E1, E2, E3. eauto.
Qed.

(** *** What [strptime] reads *)

Ltac bool_lia :=
  repeat match goal with
         | H : _ = true |- _ =>
             rewrite ?andb_true_iff, ?orb_true_iff, ?N.leb_le in H
         | H : _ = false |- _ =>
             rewrite ?andb_false_iff, ?orb_false_iff, ?N.leb_gt in H
         end;
  lia.

(** The two forms of a month of two characters are the months from 01 to 12;
    the form of one character leaves the second to be read. *)
Lemma re_m_two (a b : ascii) (r : list ascii) :
  re_m (a :: b :: r)
  = (if is_decimal_char a && is_decimal_char b
        && (1 <=? digits_value 0 [a; b])%N && (digits_value 0 [a; b] <=? 12)%N
     then [(digits_value 0 [a; b], r)] else [])
    ++ (if in_range 49 57 a then [(digit_value a, b :: r)] else []).
Proof.
  unfold re_m, re_two, re_one, in_range, is_decimal_char. simpl.
  unfold digit_value. generalize (code a) (code b). intros n1 n2.
  match goal with
  | |- (if ?b1 then _ else _) ++ (if ?b2 then _ else _) ++ _
       = (if ?b3 then _ else _) ++ _ =>
      destruct b1 eqn:E1, b2 eqn:E2, b3 eqn:E3
  end; try reflexivity; exfalso; bool_lia.
Qed.

(** The day: the first form that matches must take all that is left. *)
Lemma whole_day_spec (dl : list ascii) : whole_day (re_d dl) = day_number dl.
Proof.
  destruct dl as [|a [|b [|c r]]]; [reflexivity| | |].
  - unfold re_d, re_two, re_one, re_char, day_number. simpl.
    destruct (Ascii.eqb a " "); simpl; rewrite ?app_nil_r;
      by destruct (in_range 49 57 a).
  - unfold re_d, re_two, re_one, re_char, day_number.
    destruct (Ascii.eqb_spec a " ") as [->|Hblank].
    + simpl. by destruct (in_range 49 57 b).
    + unfold in_range, is_decimal_char. simpl. unfold digit_value.
      generalize (code a) (code b). intros n1 n2.
      repeat match goal with
             | |- context [if ?b then _ else _] =>
                 lazymatch b with
                 | context [if _ then _ else _] => fail
                 | _ => destruct b eqn:?
                 end
             end; simpl; try reflexivity; exfalso; bool_lia.
  - unfold re_d, re_two, re_one, re_char, day_number.
    repeat (simpl;
            match goal with
            | |- context [if ?b then _ else _] =>
                lazymatch b with
                | context [if _ then _ else _] => fail
                | _ => destruct b eqn:?
                end
            end); reflexivity.
Qed.

Lemma whole_match_day (y m : N) (dl : list ascii) :
  whole_match (re_d dl ≫= λ '(d, l5), [(y, m, d, l5)])
  = (d ← day_number dl; Some (y, m, d)).
Proof.
  rewrite <- whole_day_spec. by destruct (re_d dl) as [|[d [|]] ?].
Qed.

Ltac split_conditions :=
  repeat (simpl;
          match goal with
          | |- context [if ?b then _ else _] =>
              lazymatch b with
              | context [if _ then _ else _] => fail
              | _ => destruct b eqn:?
              end
          end).

(** The month and the day: the pattern reads what the fields at the hyphen
    hold. *)
Lemma whole_match_month_day (y : N) (rest : list ascii) :
  whole_match
    (re_m rest ≫= λ '(m, l3),
       re_hyphen l3 ≫= λ l4, re_d l4 ≫= λ '(d, l5), [(y, m, d, l5)])
  = ('(ml, dl) ← split_hyphen rest;
     m ← month_number ml; d ← day_number dl; Some (y, m, d)).
Proof.
  destruct rest as [|m1 [|h2 rest2]]; [reflexivity| |].
  - unfold re_m, re_two, re_one, re_hyphen, re_char.
    split_conditions; reflexivity.
  - destruct (Ascii.eqb_spec m1 "-") as [->|Hm1].
    { unfold re_m, re_two, re_one, re_hyphen, re_char.
      split_conditions; reflexivity. }
    destruct (Ascii.eqb_spec h2 "-") as [->|Hh2].
    { unfold re_m, re_two, re_one, re_hyphen, re_char.
      destruct (Ascii.eqb m1 "-") eqn:E1; [by apply Ascii.eqb_eq in E1|].
      simpl. rewrite E1. simpl.
      destruct (in_range 49 49 m1), (in_range 48 48 m1), (in_range 49 57 m1);
        simpl; rewrite ?app_nil_r; try reflexivity; apply whole_match_day. }
    assert (E1 : Ascii.eqb m1 "-" = false) by (by apply Ascii.eqb_neq).
    assert (E2 : Ascii.eqb h2 "-" = false) by (by apply Ascii.eqb_neq).
    rewrite re_m_two. unfold re_hyphen, re_char.
    destruct rest2 as [|h3 rest3].
    { simpl. rewrite E1, E2. simpl.
      match goal with
      | |- context [if ?b then _ else _] => destruct b
      end; simpl; destruct (in_range 49 57 m1); simpl; by rewrite ?E2. }
    destruct (Ascii.eqb h3 "-") eqn:E3.
    + simpl. rewrite E1, E2, E3. simpl.
      match goal with
      | |- context [if ?b then _ else _] => destruct b
      end; simpl; destruct (in_range 49 57 m1); simpl; rewrite ?E2, ?E3; simpl;
        rewrite ?app_nil_r; try reflexivity; apply whole_match_day.
    + simpl. rewrite E1, E2, E3. simpl.
      match goal with
      | |- context [if ?b then _ else _] => destruct b
      end; destruct (in_range 49 57 m1);
        destruct (split_hyphen rest3) as [[before after]|];
        simpl; rewrite ?E2, ?E3; reflexivity.
Qed.

Lemma re_Ymd_fields (s : string) :
  whole_match (re_Ymd (String.list_ascii_of_string s)) = date_fields s.
Proof.
  unfold date_fields, re_Ymd, re_Y, re_hyphen, re_char.
  destruct (String.list_ascii_of_string s) as [|y1 [|y2 [|y3 [|y4 [|h rest]]]]];
    try reflexivity.
  - by destruct (forallb is_decimal_char [y1; y2; y3; y4]).
  - destruct (forallb is_decimal_char [y1; y2; y3; y4]); [|reflexivity].
    destruct (Ascii.eqb h "-") eqn:Eh; simpl; rewrite Eh; [|reflexivity].
    simpl. rewrite !app_nil_r. apply whole_match_month_day.
Qed.

(** [strptime] reads a text exactly when the text has the three fields and
    they name a day of the calendar. *)
Lemma strptime_reads (s : string) (dt : date) :
  strptime_Ymd s = Ok dt
  ↔ ∃ y m d, date_fields s = Some (y, m, d) ∧ datetime y m d = Ok dt.
Proof.
  rewrite <- re_Ymd_fields. unfold strptime_Ymd, whole_match.
  destruct (re_Ymd (String.list_ascii_of_string s)) as [|[[[y m] d] [|c r]] ?].
  - split; [done|]. by intros (? & ? & ? & ? & _).
  - split.
    + intros Hd. by exists y, m, d.
    + by intros (? & ? & ? & [= <- <- <-] & Hd).
  - split; [done|]. by intros (? & ? & ? & ? & _).
Qed.

Lemma strptime_raises (s : string) (e : exn) :
  strptime_Ymd s = Raise e → ∃ msg, e = ValueError msg.
Proof.
  unfold strptime_Ymd, datetime. repeat case_match; intros [= <-]; eauto.
Qed.

Lemma strptime_empty : ∃ msg, strptime_Ymd "" = Raise (ValueError msg).
Proof. eexists. reflexivity. Qed.

(** The focus-out rule of [DateEntry]: valid exactly when the text passes
    [strptime]; a text that does not leaves the error 'Invalid date'. *)
Lemma date_focusout_rule (self : Widget DateEntry.t) :
  DateEntry._focusout_validate self
  = match strptime_Ymd (text self) with
    | Ok _ => (Ok true, self)
    | Raise _ => (Ok false, error_set "Invalid date" self)
    end.
Proof.
  unfold DateEntry._focusout_validate.
  destruct (String.eqb_spec (text self) "") as [E|E].
  - simpl. rewrite E. destruct self; reflexivity.
  - destruct (strptime_Ymd (text self)) as [d|e] eqn:Hs; [done|].
    destruct (strptime_raises _ _ Hs) as [msg ->]. done.
Qed.

(** The empty text fails the focus-out rule, in the class version and in the
    stand-alone entry, and both leave an error message. *)
Lemma date_focusout_empty (self : Widget DateEntry.t)
    (alone : Widget StandaloneDateEntry.t) :
  text self = "" → text alone = "" →
  DateEntry._focusout_validate self = (Ok false, error_set "Invalid date" self) ∧
  (StandaloneDateEntry.validation_event Examples.focusout alone).1 = Ok false ∧
  error (StandaloneDateEntry.validation_event Examples.focusout alone).2
  = "Not a valid date".
Proof.
  intros E E'. rewrite date_focusout_rule, E.
  unfold StandaloneDateEntry.validation_event, StandaloneDateEntry._validate.
  simpl. rewrite E'. done.
Qed.

(** A text laid out as C6 words it passes the focus-out rule. *)
Lemma iso_date_text_valid (self : Widget DateEntry.t) :
  iso_date_text (text self) = true →
  DateEntry._focusout_validate self = (Ok true, self).
Proof.
  intros Hiso. rewrite date_focusout_rule.
  by destruct (iso_date_text_parses _ Hiso) as [d ->].
Qed.

(** The focus-out rule accepts a text exactly when it has the three fields
    that [strptime] reads and they name a day of the calendar. *)
Lemma date_focusout_valid_iff (self : Widget DateEntry.t) :
  (DateEntry._focusout_validate self).1 = Ok true
  ↔ ∃ y m d dt, date_fields (text self) = Some (y, m, d) ∧ datetime y m d = Ok dt.
Proof.
  rewrite date_focusout_rule. split.
  - destruct (strptime_Ymd (text self)) as [dt|e] eqn:Hs; [|done].
    intros _. apply strptime_reads in Hs as (y & m & d & Hf & Hd).
    by exists y, m, d, dt.
  - intros (y & m & d & dt & Hf & Hd).
    assert (Hs : strptime_Ymd (text self) = Ok dt).
    { apply strptime_reads. by exists y, m, d. }
    by rewrite Hs.
Qed.

(** C6 fails on the code: [strptime] also reads a month and a day of one
    digit, so the focus-out rule accepts [2024-1-5], a text that is not laid
    out as four, two and two digits, and leaves no error; in the class
    version and in the stand-alone entry. *)
Theorem date_focusout_accepts_short_fields :
  iso_date_text "2024-1-5" = false ∧
  strptime_Ymd "2024-1-5" = Ok (mkDate 2024 1 5) ∧
  validation_event Examples.focusout (Inputs.widget DateEntry.new "2024-1-5")
  = (Ok true, mkWidget DateEntry.new "2024-1-5" "" "black" NORMAL 0) ∧
  StandaloneDateEntry.validation_event Examples.focusout
    (Inputs.widget StandaloneDateEntry.new "2024-1-5")
  = (Ok true, mkWidget StandaloneDateEntry.new "2024-1-5" "" "black" NORMAL 0).
Proof. repeat split. Qed.

(** ** The spin box *)

Lemma alphabet_one (c : ascii) :
  str_contains (String c "") "-1234567890."
  = Ascii.eqb c "-" || Ascii.eqb c "." || is_decimal_char c.
Proof. destruct c as [[] [] [] [] [] [] [] []]; reflexivity. Qed.

Lemma one_char_eqb (c c' : ascii) :
  String.eqb (String c "") (String c' "") = Ascii.eqb c c'.
Proof. simpl. by destruct (Ascii.eqb c c'). Qed.

(** The texts that occur in ['-.'] are not numerals. *)
Lemma lone_signs_not_numerals (p : string) (d : Decimal) :
  Decimal_of_str p = Ok d → str_contains p "-." = false.
Proof.
  destruct (str_contains p "-.") eqn:E; [|done].
  intros Hd. exfalso.
  assert (Hp : p = "" ∨ p = "-" ∨ p = "." ∨ p = "-.").
  { destruct p as [|c1 [|c2 [|c3 p]]]; [by left| | |]; simpl in E;
      repeat match type of E with
             | context [ascii_dec ?x ?y] => destruct (ascii_dec x y); subst
             end;
      simpl in E; try discriminate E; auto. }
  destruct Hp as [-> | [-> | [-> | ->]]]; discriminate Hd.
Qed.

(** The key rule of [ValidatedSpinbox] on the proposed texts that are
    numerals: a deletion is accepted; an insertion of one character that
    fails the character tests is refused; after the tests the lone ['-'] and
    ['.'] are accepted, and a numeral is refused exactly when it is above the
    maximum or has more decimal places than the increment.  The minimum
    enters through the sign test alone: a numeral below it is not refused for
    that. *)
Lemma spinbox_key_rule `{Tcl} (a : Args) (self : Widget ValidatedSpinbox.t)
    (c : ascii) :
  (action a = "0" → ValidatedSpinbox._key_validate a self = (Ok true, self)) ∧
  (action a ≠ "0" → char a = String c "" →
   (admissible self a c = false →
    ValidatedSpinbox._key_validate a self = (Ok false, self)) ∧
   (admissible self a c = true → proposed a = "-" ∨ proposed a = "." →
    ValidatedSpinbox._key_validate a self = (Ok true, self)) ∧
   (admissible self a c = true →
    ∀ d, Decimal_of_str (proposed a) = Ok d →
    ValidatedSpinbox._key_validate a self
    = (Ok (negb (Decimal_gt d (float_value (ValidatedSpinbox.to (options self)))
                 || (exponent d <? ValidatedSpinbox.precision (options self)))),
       self))).
Proof.
  unfold ValidatedSpinbox._key_validate, admissible. split.
  - intros ->. done.
  - intros Ha Hc. destruct (String.eqb_spec (action a) "0"); [done|].
    rewrite Hc, alphabet_one.
    rewrite !one_char_eqb.
    set (t1 := Ascii.eqb c "-" || Ascii.eqb c "." || is_decimal_char c).
    set (t2 := Ascii.eqb c "-" && _).
    set (t3 := Ascii.eqb c "." && _).
    split; [|split].
    + intros E. by destruct t1, t2, t3.
    + intros E Hp. destruct t1, t2, t3; try done.
      cbn [negb orb]. by destruct Hp as [-> | ->].
    + intros E d Hd. destruct t1, t2, t3; try done.
      cbn [negb orb]. rewrite (lone_signs_not_numerals _ _ Hd), Hd.
      by destruct (Decimal_gt d _ || _).
Qed.

(** An increment that is a multiple of ten gives a positive [precision], and
    the rule then refuses every whole number. *)
Lemma spinbox_step_ten :
  ValidatedSpinbox.precision_of "10" = Ok 1 ∧
  ValidatedSpinbox._key_validate (Examples.insertion "" "5" "0" "5")
    (Inputs.widget (ValidatedSpinbox.new (Finite 0) (Finite 100) 1) "")
  = (Ok false, Inputs.widget (ValidatedSpinbox.new (Finite 0) (Finite 100) 1) "").
Proof. split; reflexivity. Qed.

(** C8 fails on the code: the key rule hands every proposed text that passed
    the character tests to [Decimal], and a text such as [1-] is not a
    numeral.  In a spin box with the default bounds a hyphen typed in the
    empty text is accepted; a digit typed before that hyphen then raises
    [InvalidOperation] instead of a verdict. *)
Theorem spinbox_key_raises :
  ValidatedSpinbox._key_validate (Examples.insertion "" "-" "0" "-")
    (Examples.default_spinbox "")
  = (Ok true, Examples.default_spinbox "") ∧
  admissible (Examples.default_spinbox "-") (Examples.insertion "-" "1" "0" "1-") "1"
  = true ∧
  ValidatedSpinbox._key_validate (Examples.insertion "-" "1" "0" "1-")
    (Examples.default_spinbox "-")
  = (Raise InvalidOperation, Examples.default_spinbox "-") ∧
  validation_event (Examples.insertion "-" "1" "0" "1-") (Examples.default_spinbox "-")
  = (Raise InvalidOperation,
     mkWidget (ValidatedSpinbox.new NegInfinity Infinity 0) "-" "" "black" NORMAL 0).
Proof. repeat split. Qed.

(** ** The error state of a widget *)

#[global] Instance RequiredEntry_Lawful : Lawful RequiredEntry.t.
Proof.
  split; simpl; try done.
  - intros w Hw. unfold RequiredEntry._focusout_validate.
    destruct (String.eqb (text w) ""); simpl; [done|]. rewrite Hw. split; done.
  - intros w. unfold RequiredEntry._focusout_validate. by case_match.
Qed.

#[global] Instance DateEntry_Lawful : Lawful DateEntry.t.
Proof.
  split; simpl.
  - intros w Hw. rewrite date_focusout_rule.
    destruct (strptime_Ymd (text w)); simpl; [|done]. rewrite Hw. split; done.
  - intros w. rewrite date_focusout_rule. by destruct (strptime_Ymd (text w)).
  - intros a w. unfold DateEntry._key_validate. by repeat case_match.
  - intros a w. unfold DateEntry._key_validate. by repeat case_match.
Qed.

#[global] Instance ValidatedCombobox_Lawful : Lawful ValidatedCombobox.t.
Proof.
  split; simpl.
  - intros w Hw. unfold ValidatedCombobox._focusout_validate.
    destruct (String.eqb (text w) ""); simpl; [done|]. rewrite Hw. split; done.
  - intros w. unfold ValidatedCombobox._focusout_validate. by case_match.
  - intros a w. unfold ValidatedCombobox._key_validate. by repeat case_match.
  - intros a w. unfold ValidatedCombobox._key_validate. by repeat case_match.
Qed.

Lemma Decimal_of_str_raises (s : string) (e : exn) :
  Decimal_of_str s = Raise e → e = InvalidOperation.
Proof. unfold Decimal_of_str. repeat case_match; congruence. Qed.

#[global] Instance ValidatedSpinbox_Lawful `{Tcl} : Lawful ValidatedSpinbox.t.
Proof.
  split; simpl.
  - intros w Hw. unfold ValidatedSpinbox._focusout_validate.
    destruct (Decimal_of_str (text w)) as [d|e] eqn:Hd.
    + destruct (Decimal_lt d _), (Decimal_gt d _); simpl; done.
    + rewrite (Decimal_of_str_raises _ _ Hd). simpl. done.
  - intros w. unfold ValidatedSpinbox._focusout_validate.
    destruct (Decimal_of_str (text w)) as [d|e] eqn:Hd.
    + by destruct (Decimal_lt d _), (Decimal_gt d _).
    + by rewrite (Decimal_of_str_raises _ _ Hd).
  - intros a w. unfold ValidatedSpinbox._key_validate. by repeat case_match.
  - intros a w. unfold ValidatedSpinbox._key_validate. by repeat case_match.
Qed.

Section Tracking.
Context `{Lawful C}.

(** One validation event: the widget ends with a message, and in red, exactly
    when the event was a focus-out and the verdict was a failure. *)
Lemma after_validation_event (a : Args) (w : Widget C) :
  (error (validation_event a w).2 ≠ ""
   ↔ event a = "focusout" ∧ (validation_event a w).1 = Ok false) ∧
  (foreground (validation_event a w).2 = "red"
   ↔ event a = "focusout" ∧ (validation_event a w).1 = Ok false) ∧
  (foreground (validation_event a w).2 = "black"
   ↔ ¬ (event a = "focusout" ∧ (validation_event a w).1 = Ok false)).
Proof.
  unfold validation_event, _validate.
  set (w0 := _toggle_error false (error_set "" w)).
  assert (He : error w0 = "") by done.
  assert (Hf : foreground w0 = "black") by done.
  assert (Hs : state w0 = state w) by done. rewrite Hs. clearbody w0.
  destruct (String.eqb (state w) DISABLED).
  { simpl. rewrite He, Hf. intuition congruence. }
  destruct (String.eqb_spec (event a) "focusout") as [Hev|Hev].
  - pose proof (focusout_error w0 He) as Hfe.
    pose proof (focusout_foreground w0) as Hff.
    destruct (_focusout_validate w0) as [[[|]|e] w1] eqn:Hr; simpl in *.
    + rewrite Hff, Hf.
      destruct (decide (error w1 = "")) as [->|Hne]; [intuition congruence|].
      apply Hfe in Hne. done.
    + unfold _invalid. rewrite Hev. simpl.
      assert (error w1 ≠ "") by (by apply Hfe). intuition congruence.
    + rewrite Hff, Hf.
      destruct (decide (error w1 = "")) as [->|Hne]; [intuition congruence|].
      apply Hfe in Hne. done.
  - destruct (String.eqb_spec (event a) "key") as [Hk|Hk].
    + pose proof (key_error a w0) as Hke. pose proof (key_foreground a w0) as Hkf.
      destruct (_key_validate a w0) as [[[|]|e] w1] eqn:Hr; simpl in *;
        try (unfold _invalid, _key_invalid;
             destruct (String.eqb_spec (event a) "focusout");
             [done|]; rewrite Hk; simpl);
        rewrite Hke, Hkf, He, Hf; intuition congruence.
    + simpl. rewrite He, Hf. intuition congruence.
Qed.

Lemma run_tracks (steps : list step) : ∀ (w : Widget C) (log : Log),
  (error w ≠ "" ↔ last_call_failed_focusout log) →
  (log ≠ [] →
   (foreground w = "red" ↔ last_call_failed_focusout log) ∧
   (foreground w = "black" ↔ ¬ last_call_failed_focusout log)) →
  (error (run steps w log).1 ≠ "" ↔ last_call_failed_focusout (run steps w log).2) ∧
  ((run steps w log).2 ≠ [] →
   (foreground (run steps w log).1 = "red"
    ↔ last_call_failed_focusout (run steps w log).2) ∧
   (foreground (run steps w log).1 = "black"
    ↔ ¬ last_call_failed_focusout (run steps w log).2)).
Proof.
  induction steps as [|[a|value position|s] steps IH]; intros w log He Hf;
    simpl; [done| |by apply IH|by apply IH].
  destruct (after_validation_event a w) as (E1 & E2 & E3).
  destruct (validation_event a w) as [verdict w'] eqn:Hv. simpl in *.
  assert (Hlast : last_call_failed_focusout ((event a, verdict) :: log)
                  ↔ event a = "focusout" ∧ verdict = Ok false).
  { unfold last_call_failed_focusout. simpl. split.
    - by intros [= -> ->].
    - by intros [-> ->]. }
  apply IH.
  - by rewrite Hlast.
  - intros _. by rewrite Hlast.
Qed.

Lemma run_tracks_last_call : tracks_last_call C.
Proof.
  intros steps w Hw. apply run_tracks.
  - unfold last_call_failed_focusout. simpl. by rewrite Hw.
  - done.
Qed.

Lemma validate_clears_first : clears_first C.
Proof. intros a w msg colour. reflexivity. Qed.

Lemma failed_focusout_shows : failure_shows C.
Proof.
  intros a w Hev Hv. destruct (after_validation_event a w) as (E1 & E2 & _).
  split; [by apply E1|by apply E2].
Qed.

End Tracking.

(** The radio group keeps a message exactly when its variable is empty; it has
    no colour to set. *)
Lemma radio_group_error (self : ValidatedRadioGroup.t) :
  ValidatedRadioGroup.error (ValidatedRadioGroup.trigger_focusout_validation self)
  ≠ ""
  ↔ ValidatedRadioGroup.variable self = "".
Proof.
  unfold ValidatedRadioGroup.trigger_focusout_validation. simpl.
  destruct (String.eqb_spec (ValidatedRadioGroup.variable self) ""); simpl;
    split; done.
Qed.

(** C4, as the code has it: each validated widget has its own error variable;
    a validation call starts by clearing the error and setting the foreground
    to black; a failed focus-out validation leaves a message and the colour
    red; so a widget holds a message, and is red, exactly when its most recent
    validation call was a focus-out validation that failed.  For the four
    classes built on [ValidatedMixin]. *)
Theorem error_follows_last_call `{Tcl} :
  error_state_kept RequiredEntry.t ∧
  error_state_kept DateEntry.t ∧
  error_state_kept ValidatedCombobox.t ∧
  error_state_kept ValidatedSpinbox.t.
Proof.
  unfold error_state_kept.
  split; [|split; [|split]]; (split; [apply validate_clears_first|
     split; [apply failed_focusout_shows|apply run_tracks_last_call]]).
Qed.

Lemma error_follows_last_call_witness :
  error (Inputs.widget RequiredEntry.new "") = "" ∧
  last_call_failed_focusout
    (run [Validation Examples.focusout] (Inputs.widget RequiredEntry.new "") []).2 ∧
  error (run [Validation Examples.focusout] (Inputs.widget RequiredEntry.new "") []).1
  = "A value is required" ∧
  error (run [Validation Examples.focusout] (Inputs.widget RequiredEntry.new "") []).1
  ≠ "".
Proof.
  split; [reflexivity|]. split; [reflexivity|]. split; [reflexivity|].
  apply (proj1 (proj2 (proj2 (proj1 error_follows_last_call))
                  [Validation Examples.focusout]
                  (Inputs.widget RequiredEntry.new "") eq_refl)).
  reflexivity.
Defined.

(** C4 fails as stated: the focus-out validation of an empty required entry
    fails, the key event that follows clears the message and the colour, and
    the most recent focus-out validation is still the one that failed. *)
Lemma error_cleared_by_next_call :
  last_focusout
    (run [Validation Examples.focusout;
          Validation (Examples.insertion "" "a" "0" "a")]
       (Inputs.widget RequiredEntry.new "") []).2
  = Some (Ok false) ∧
  error
    (run [Validation Examples.focusout;
          Validation (Examples.insertion "" "a" "0" "a")]
       (Inputs.widget RequiredEntry.new "") []).1
  = "" ∧
  foreground
    (run [Validation Examples.focusout;
          Validation (Examples.insertion "" "a" "0" "a")]
       (Inputs.widget RequiredEntry.new "") []).1
  = "black".
Proof. repeat split. Qed.

(** * Further properties of the code *)

(** ** Saving *)

(** X1: a press of Save is all or nothing, in both handlers.  Either the record
    is read: then the handler appends it, counts it, resets the form and lets
    no exception escape.  Or it is not: then the files, the counter and the
    variables of the form (and in the script the notes) are as before. *)
Theorem save_all_or_nothing `{Tcl} (today : date) (fs : Files) :
  (∀ self,
     (∃ data,
        DataRecordForm.get (Application.recordform self) = Ok data ∧
        Application._on_save today fs self
        = (None,
           write_csv (save_filename today)
             (negb (Path_exists (save_filename today) fs)) data fs,
           Application.mk (DataRecordForm.reset (Application.recordform self))
             (pretty (Application._records_saved self + 1)
                +:+ " records saved this session.")
             (Application._records_saved self + 1))) ∨
     (files_after (Application._on_save today fs self) = fs ∧
      Application.recordform (state_after (Application._on_save today fs self))
      = Application.recordform self ∧
      Application._records_saved (state_after (Application._on_save today fs self))
      = Application._records_saved self)) ∧
  (∀ g,
     (∃ data,
        Script.read_form g = Script.Read data ∧
        files_after (Script.on_save today fs g)
        = write_csv (save_filename today)
            (negb (Path_exists (save_filename today) fs)) data fs ∧
        Script.records_saved (state_after (Script.on_save today fs g))
        = Script.records_saved g + 1 ∧
        Script.notes_inp (state_after (Script.on_save today fs g)) = "" ∧
        Script.variables (state_after (Script.on_save today fs g))
        = DataRecordForm.reset (Script.variables g)) ∨
     (files_after (Script.on_save today fs g) = fs ∧
      Script.variables (state_after (Script.on_save today fs g))
      = Script.variables g ∧
      Script.notes_inp (state_after (Script.on_save today fs g))
      = Script.notes_inp g ∧
      Script.records_saved (state_after (Script.on_save today fs g))
      = Script.records_saved g)).
Proof.
  split.
  - intros self. unfold Application._on_save.
    destruct (DataRecordForm.get (Application.recordform self)) as [data|e].
    + left. by exists data.
    + right. by destruct e.
  - intros g. unfold Script.on_save.
    destruct (Script.read_form g) as [data|key|e].
    + left. by exists data.
    + by right.
    + by right.
Qed.

Lemma Forall2_entry_keys `{Tcl} fault (vars : Dict TkVar) (data : Dict PyVal) :
  Forall2 (entry_of fault) vars data → keys data = keys vars.
Proof.
  induction 1 as [|kv kc vars data [Hk _] _ IH]; [done|].
  unfold keys in *. simpl. by rewrite Hk, IH.
Qed.

(** X2: the record has the columns of the form: [get] returns the keys of the
    variables in their order, so the header and every row that the class
    version writes have one cell for each variable; the script adds the
    column of the notes at the end. *)
Theorem record_has_form_columns `{Tcl} (vars : Dict TkVar) :
  NoDup (keys vars) →
  (∀ data, DataRecordForm.get vars = Ok data →
     keys data = keys vars ∧
     length (values data) = length vars ∧
     length (header_row (keys data)) = length vars) ∧
  (∀ notes status n data,
     "Notes" ∉ keys vars →
     Script.read_form (Script.mk vars notes status n) = Script.Read data →
     keys data = keys vars ++ ["Notes"] ∧
     length (values data) = S (length vars)).
Proof.
  intros Hnd. split.
  - intros data. unfold DataRecordForm.get.
    destruct (dict_item vars "Equipment Fault") as [fv|]; [|done]. simpl.
    destruct (Variable_get fv) as [f|]; [|done]. simpl. intros Hget.
    destruct (get_items_ok _ _ [] data Hnd Hget) as (new & -> & HF).
    apply Forall2_entry_keys in HF as Hk. simpl. split; [done|].
    apply Forall2_length in HF.
    unfold header_row, values, keys. by rewrite !length_map.
  - intros notes status n data Hnotes. unfold Script.read_form. simpl.
    destruct (dict_item vars "Equipment Fault") as [fv|]; [|done]. simpl.
    destruct (Variable_get fv) as [f|]; [|done].
    destruct (Script.read_items (truth f) vars []) as [d| |] eqn:Hr; try done.
    intros [= <-]. apply read_items_ok in Hr.
    destruct (get_items_ok _ _ [] d Hnd Hr) as (new & -> & HF).
    apply Forall2_entry_keys in HF as Hk. simpl in *.
    rewrite dict_set_fresh by (by rewrite Hk).
    rewrite keys_app, Hk. split; [done|].
    apply Forall2_length in HF.
    unfold values. rewrite length_map, length_app. simpl. lia.
Qed.

Lemma record_has_form_columns_witness :
  NoDup (keys Script.variables_init) ∧
  ("Notes" ∉ keys Script.variables_init) ∧
  ∃ data,
    Script.read_form (Script.mk Script.variables_init "dry soil" "" 0)
    = Script.Read data ∧
    keys data = keys Script.variables_init ++ ["Notes"] ∧
    length (values data) = 17%nat.
Proof.
  assert (Hnd : NoDup (keys Script.variables_init)).
  { apply (bool_decide_unpack (NoDup _)). vm_compute. exact I. }
  assert (Hn : "Notes" ∉ keys Script.variables_init).
  { apply (bool_decide_unpack (_ ∉ _)). vm_compute. exact I. }
  split; [exact Hnd|]. split; [exact Hn|].
  eexists. split; [reflexivity|].
  apply (proj2 (record_has_form_columns Script.variables_init Hnd)
           "dry soil" "" 0 _ Hn).
  reflexivity.
Defined.

(** *** A session of saves *)

Lemma press_unfold `{Tcl} (today : date) (fs : Files) (app : Application.t)
    (vars : Dict TkVar) :
  Session.press today (fs, app) vars
  = match DataRecordForm.get vars with
    | Ok data =>
        (write_csv (save_filename today)
           (negb (Path_exists (save_filename today) fs)) data fs,
         Application.mk (DataRecordForm.reset vars)
           (pretty (Application._records_saved app + 1)
              +:+ " records saved this session.")
           (Application._records_saved app + 1))
    | Raise (ValueError e) =>
        (fs, Application.mk vars e (Application._records_saved app))
    | Raise _ =>
        (fs, Application.mk vars (Application.status app)
               (Application._records_saved app))
    end.
Proof.
  unfold Session.press, Application._on_save. simpl.
  destruct (DataRecordForm.get vars) as [data|e]; [done|]. by destruct e.
Qed.

Lemma saved_cons `{Tcl} (vars : Dict TkVar) (presses : list (Dict TkVar)) :
  Session.saved (vars :: presses)
  = match DataRecordForm.get vars with
    | Ok data => data :: Session.saved presses
    | Raise _ => Session.saved presses
    end.
Proof.
  unfold Session.saved. simpl. by destruct (DataRecordForm.get vars).
Qed.

(** X3: over a session of presses on one day the file of the day receives the
    records of the presses that could be read, in order and nothing else,
    after the rows it had or after one header when it did not exist; the
    other files do not change; and the counter grows by the number of those
    records. *)
Theorem session_appends_saved `{Tcl} (today : date) (presses : list (Dict TkVar)) :
  ∀ (fs : Files) (app : Application.t),
    (Session.run today presses (fs, app)).1 !! save_filename today
    = match fs !! save_filename today, Session.saved presses with
      | Some rows, records => Some (rows ++ map values records)
      | None, [] => None
      | None, first :: _ =>
          Some (header_row (keys first) :: map values (Session.saved presses))
      end ∧
    (∀ other, other ≠ save_filename today →
       (Session.run today presses (fs, app)).1 !! other = fs !! other) ∧
    Application._records_saved (Session.run today presses (fs, app)).2
    = Application._records_saved app + Z.of_nat (length (Session.saved presses)).
Proof.
  induction presses as [|vars presses IH]; intros fs app.
  - simpl. split; [|split; [done|lia]].
    destruct (fs !! save_filename today); [by rewrite app_nil_r|done].
  - change (Session.run today (vars :: presses) (fs, app))
      with (Session.run today presses (Session.press today (fs, app) vars)).
    rewrite press_unfold.
    rewrite saved_cons.
    destruct (DataRecordForm.get vars) as [data|e].
    + set (fs1 := write_csv _ _ data fs). set (app1 := Application.mk _ _ _).
      destruct (IH fs1 app1) as (IH1 & IH2 & IH3).
      destruct (write_csv_appends fs (save_filename today) data) as [W1 W2].
      fold fs1 in W1, W2.
      split; [|split].
      * rewrite IH1.
        destruct (fs !! save_filename today) as [rows|] eqn:E;
          unfold Row in *; rewrite W1.
        -- simpl. by rewrite <- app_assoc.
        -- done.
      * intros other Hne. by rewrite IH2, W2.
      * rewrite IH3. subst app1. simpl. lia.
    + destruct e;
        match goal with
        | |- context [Session.run _ _ (?f, ?a)] => exact (IH f a)
        end.
Qed.

(** *** Resetting the form *)

Lemma Variable_reset_idem (v : TkVar) :
  Variable_reset (Variable_reset v) = Variable_reset v.
Proof. by destruct v as [[] ?]. Qed.

(** X4: [reset] keeps the keys of the variables, their order and their classes,
    leaves ['0'] in every [BooleanVar] and the empty string in every other
    variable, and resetting twice is resetting once.  [on_reset] does the same
    to the variables of the script, empties the notes and keeps the status and
    the counter. *)
Theorem reset_blanks_every_variable (vars : Dict TkVar) :
  layout (DataRecordForm.reset vars) = layout vars ∧
  keys (DataRecordForm.reset vars) = keys vars ∧
  Forall (fun kv =>
            var_value kv.2
            = match var_class kv.2 with BooleanVar => "0" | _ => "" end)
    (DataRecordForm.reset vars) ∧
  DataRecordForm.reset (DataRecordForm.reset vars) = DataRecordForm.reset vars ∧
  ∀ notes status n,
    Script.on_reset (Script.mk vars notes status n)
    = Script.mk (DataRecordForm.reset vars) "" status n.
Proof.
  unfold layout, keys, DataRecordForm.reset.
  split; [|split; [|split; [|split]]].
  - induction vars as [|[k [[] v]] vars IH]; simpl; by rewrite ?IH.
  - induction vars as [|[k v] vars IH]; simpl; by rewrite ?IH.
  - induction vars as [|[k [[] v]] vars IH]; simpl; by constructor.
  - induction vars as [|[k v] vars IH]; simpl; [done|].
    by rewrite Variable_reset_idem, IH.
  - done.
Qed.

Lemma reset_of_layout (vars vars' : Dict TkVar) :
  layout vars = layout vars' →
  DataRecordForm.reset vars = DataRecordForm.reset vars'.
Proof.
  unfold layout, DataRecordForm.reset. revert vars'.
  induction vars as [|[k [c v]] vars IH]; intros [|[k' [c' v']] vars'];
    simpl; try done.
  intros [= -> -> Hl]. rewrite (IH _ Hl). by destruct c'.
Qed.

(** X5: pressing Save twice does not save twice.  In a tool kit that reads
    neither an integer nor a double from the empty string, and false from
    ['0'], the press that follows a successful save of the record form writes
    nothing and reports the first numeric field, Plot. *)
Theorem second_press_saves_nothing `{Tcl} (today : date) (fs : Files)
    (self : Application.t) (data : Dict PyVal) :
  getint "" = None → getdouble "" = None → getboolean "0" = Some false →
  layout (Application.recordform self) = layout DataRecordForm._vars_init →
  DataRecordForm.get (Application.recordform self) = Ok data →
  Application._on_save today
    (files_after (Application._on_save today fs self))
    (state_after (Application._on_save today fs self))
  = (None,
     files_after (Application._on_save today fs self),
     Application.mk (DataRecordForm.reset DataRecordForm._vars_init)
       "Error in field: Plot. Data is not saved!"
       (Application._records_saved self + 1)).
Proof.
  intros Hint Hdouble Hbool Hlayout Hget.
  unfold Application._on_save at 2 3. rewrite Hget.
  unfold files_after, state_after. cbn [fst snd].
  rewrite (reset_of_layout _ _ Hlayout).
  unfold Application._on_save. cbn [Application.recordform Application._records_saved].
  assert (E : DataRecordForm.get (DataRecordForm.reset DataRecordForm._vars_init)
              = Raise (ValueError "Error in field: Plot. Data is not saved!")).
  { set (vars := DataRecordForm.reset DataRecordForm._vars_init).
    assert (Hvars : vars = take 4 vars ++ ("Plot", mkVar IntVar "") :: drop 5 vars)
      by reflexivity.
    assert (Hfault : dict_get vars "Equipment Fault" = Some (mkVar BooleanVar "0"))
      by reflexivity.
    assert (Hread : Variable_get (mkVar BooleanVar "0") = Ok (VBool false)).
    { unfold Variable_get, BooleanVar_get. cbn [var_class var_value].
      by rewrite Hbool. }
    unfold DataRecordForm.get, dict_item. rewrite Hfault.
    unfold mbind, result_bind. cbv beta iota. rewrite Hread.
    cbv beta iota. cbn [truth].
    rewrite Hvars. apply get_items_TclError.
    - repeat (constructor 2; [right; eexists; reflexivity|]). constructor 1.
    - reflexivity.
    - unfold Variable_get, IntVar_get. cbn [var_class var_value].
      by rewrite Hint, Hdouble. }
  by rewrite E, Hget.
Qed.

Lemma second_press_saves_nothing_witness :
  getint "" = None ∧ getdouble "" = None ∧ getboolean "0" = Some false ∧
  layout (Examples.filled "J Simms" "7") = layout DataRecordForm._vars_init ∧
  (∃ data, DataRecordForm.get (Examples.filled "J Simms" "7") = Ok data) ∧
  Application._on_save Examples.today
    (files_after (Application._on_save Examples.today ∅
                    (Application.mk (Examples.filled "J Simms" "7") "" 0)))
    (state_after (Application._on_save Examples.today ∅
                    (Application.mk (Examples.filled "J Simms" "7") "" 0)))
  = (None,
     files_after (Application._on_save Examples.today ∅
                    (Application.mk (Examples.filled "J Simms" "7") "" 0)),
     Application.mk (DataRecordForm.reset DataRecordForm._vars_init)
       "Error in field: Plot. Data is not saved!" 1).
Proof.
  split; [reflexivity|]. split; [reflexivity|]. split; [reflexivity|].
  split; [reflexivity|]. split; [eexists; reflexivity|].
  eapply (second_press_saves_nothing Examples.today ∅
            (Application.mk (Examples.filled "J Simms" "7") "" 0));
    reflexivity.
Defined.

(** ** The framework *)

Section Trigger.
Context `{ValidatedMixin C}.
Hypothesis only_error :
  ∀ w : Widget C, ∃ msg, (_focusout_validate w).2 = error_set msg w.

Lemma trigger_twice (self : Widget C) :
  trigger_focusout_validation (trigger_focusout_validation self).2
  = trigger_focusout_validation self.
Proof.
  unfold trigger_focusout_validation, _validate. cbn [event].
  set (w0 := _toggle_error false (error_set "" self)).
  assert (Hs : state w0 = state self) by reflexivity. rewrite Hs.
  destruct (String.eqb (state self) DISABLED) eqn:Es.
  { cbn [snd]. change (_toggle_error false (error_set "" w0)) with w0.
    by rewrite Hs, Es. }
  cbn [String.eqb Ascii.eqb Bool.eqb].
  destruct (only_error w0) as [msg Hmsg].
  destruct (_focusout_validate w0) as [v w1] eqn:Hr. simpl in Hmsg. subst w1.
  assert (Hclear : ∀ w', (w' = error_set msg w0
                          ∨ w' = _focusout_invalid (error_set msg w0)) →
                         _toggle_error false (error_set "" w') = w0).
  { by intros w' [-> | ->]. }
  destruct v as [[|]|e]; cbn [snd].
  - rewrite (Hclear (error_set msg w0)) by (by left).
    by rewrite Hs, Es, Hr.
  - rewrite (Hclear (_focusout_invalid (error_set msg w0))) by (by right).
    by rewrite Hs, Es, Hr.
  - rewrite (Hclear (error_set msg w0)) by (by left).
    by rewrite Hs, Es, Hr.
Qed.

End Trigger.

(** X6: the check that the program runs by hand is the focus-out event of Tk,
    and running it twice is running it once: the verdict and the widget are
    the same.  For the four classes built on the mixin. *)
Theorem trigger_is_focusout_event `{Tcl} :
  (∀ C (M : ValidatedMixin C) (self : Widget C),
     trigger_focusout_validation self
     = validation_event (mkArgs "" "" "" "focusout" "" "") self) ∧
  (∀ self : Widget RequiredEntry.t,
     trigger_focusout_validation (trigger_focusout_validation self).2
     = trigger_focusout_validation self) ∧
  (∀ self : Widget DateEntry.t,
     trigger_focusout_validation (trigger_focusout_validation self).2
     = trigger_focusout_validation self) ∧
  (∀ self : Widget ValidatedCombobox.t,
     trigger_focusout_validation (trigger_focusout_validation self).2
     = trigger_focusout_validation self) ∧
  (∀ self : Widget ValidatedSpinbox.t,
     trigger_focusout_validation (trigger_focusout_validation self).2
     = trigger_focusout_validation self).
Proof.
  split; [|split; [|split; [|split]]].
  - intros C M self. unfold trigger_focusout_validation, validation_event.
    by destruct (_validate _ self) as [[[|]|] ?].
  - apply trigger_twice. intros w. simpl.
    unfold RequiredEntry._focusout_validate.
    destruct (String.eqb (text w) ""); [by eexists|].
    exists (error w). by destruct w.
  - apply trigger_twice. intros w. simpl. rewrite date_focusout_rule.
    destruct (strptime_Ymd (text w)); [|by eexists].
    exists (error w). by destruct w.
  - apply trigger_twice. intros w. simpl.
    unfold ValidatedCombobox._focusout_validate.
    destruct (String.eqb (text w) ""); [by eexists|].
    exists (error w). by destruct w.
  - apply trigger_twice. intros w. simpl.
    unfold ValidatedSpinbox._focusout_validate.
    destruct (Decimal_of_str (text w)) as [d|e] eqn:Ed.
    + destruct (Decimal_lt d _), (Decimal_gt d _); simpl; try (by eexists).
      exists (error w). by destruct w.
    + rewrite (Decimal_of_str_raises _ _ Ed). by eexists.
Qed.

(** ** The two date entries *)

(** X7: on a widget that is not disabled the stand-alone date entry and the
    date entry of the class version agree on every event: the same verdict,
    a message present in one exactly when it is in the other, and the same
    colour. *)
Theorem date_entries_agree (a : Args) (alone : Widget StandaloneDateEntry.t)
    (self : Widget DateEntry.t) :
  text alone = text self → state self ≠ DISABLED →
  (StandaloneDateEntry.validation_event a alone).1 = (validation_event a self).1 ∧
  (error (StandaloneDateEntry.validation_event a alone).2 ≠ ""
   ↔ error (validation_event a self).2 ≠ "") ∧
  foreground (StandaloneDateEntry.validation_event a alone).2
  = foreground (validation_event a self).2.
Proof.
  intros Ht Hs.
  unfold StandaloneDateEntry.validation_event, StandaloneDateEntry._validate,
    StandaloneDateEntry._on_invalid, validation_event, _validate, _invalid.
  simpl. destruct (String.eqb_spec (state self) DISABLED) as [|_]; [done|].
  destruct (String.eqb_spec (event a) "key") as [Hk|Hk].
  - rewrite Hk. simpl. unfold DateEntry._key_validate.
    destruct (String.eqb (action a) "0"); [done|].
    destruct (str_in (index a) _).
    { destruct (isdigit (char a)); simpl; by rewrite ?Hk. }
    destruct (str_in (index a) _).
    { destruct (String.eqb (char a) "-"); simpl; by rewrite ?Hk. }
    simpl. by rewrite ?Hk.
  - destruct (String.eqb_spec (event a) "focusout") as [Hf|Hf]; [|done].
    rewrite date_focusout_rule. simpl. rewrite Ht.
    destruct (strptime_Ymd (text self)) as [d|e] eqn:Hp; [done|].
    destruct (strptime_raises _ _ Hp) as [msg ->]. simpl.
    destruct (String.eqb_spec (event a) "key"); [done|]. simpl.
    rewrite ?Hf. simpl. done.
Qed.

Lemma date_entries_agree_witness :
  (StandaloneDateEntry.validation_event Examples.focusout
     (Inputs.widget StandaloneDateEntry.new "2026-02-30")).1
  = Ok false ∧
  (validation_event Examples.focusout
     (Inputs.widget DateEntry.new "2026-02-30")).1
  = Ok false ∧
  foreground (StandaloneDateEntry.validation_event Examples.focusout
                (Inputs.widget StandaloneDateEntry.new "2026-02-30")).2
  = foreground (validation_event Examples.focusout
                  (Inputs.widget DateEntry.new "2026-02-30")).2.
Proof.
  split; [reflexivity|]. split; [reflexivity|].
  apply (date_entries_agree Examples.focusout
           (Inputs.widget StandaloneDateEntry.new "2026-02-30")
           (Inputs.widget DateEntry.new "2026-02-30")).
  - reflexivity.
  - discriminate.
Defined.

(** ** The spin box *)

(** X8: on a text of the characters that the key rule lets in, the focus-out
    rule of the spin box never raises.  Between finite bounds it accepts the
    text exactly when it is a numeral worth no less than the minimum and no
    more than the maximum; a text that is not a numeral leaves 'Invalid number
    string', a numeral above the maximum 'Value is too high', and one below
    the minimum, and not above the maximum, 'Value is too low'. *)
Theorem spinbox_focusout_bounds `{Tcl} (self : Widget ValidatedSpinbox.t)
    (lo hi : Q) :
  keyed (text self) = true →
  float_value (ValidatedSpinbox.from_ (options self)) = Finite lo →
  float_value (ValidatedSpinbox.to (options self)) = Finite hi →
  (∃ b, (ValidatedSpinbox._focusout_validate self).1 = Ok b) ∧
  ((ValidatedSpinbox._focusout_validate self).1 = Ok true
   ↔ ∃ d, Decimal_of_str (text self) = Ok d ∧
          (lo <= Decimal_value d)%Q ∧ (Decimal_value d <= hi)%Q) ∧
  (∀ e, Decimal_of_str (text self) = Raise e →
        ValidatedSpinbox._focusout_validate self
        = (Ok false, error_set ("Invalid number string: " +:+ text self) self)) ∧
  (∀ d, Decimal_of_str (text self) = Ok d → ¬ (Decimal_value d <= hi)%Q →
        ValidatedSpinbox._focusout_validate self
        = (Ok false,
           error_set ("Value is too high (max "
                        +:+ float_str (ValidatedSpinbox.to (options self)) +:+ ")")
             self)) ∧
  (∀ d, Decimal_of_str (text self) = Ok d →
        ¬ (lo <= Decimal_value d)%Q → (Decimal_value d <= hi)%Q →
        ValidatedSpinbox._focusout_validate self
        = (Ok false,
           error_set ("Value is too low (min "
                        +:+ float_str (ValidatedSpinbox.from_ (options self)) +:+ ")")
             self)).
Proof.
  intros _ Hlo Hhi. unfold ValidatedSpinbox._focusout_validate.
  rewrite Hlo, Hhi. unfold Decimal_lt, Decimal_gt.
  destruct (Decimal_of_str (text self)) as [d|e] eqn:Hd.
  - destruct (Qle_bool lo (Decimal_value d)) eqn:El;
      destruct (Qle_bool (Decimal_value d) hi) eqn:Eh; simpl;
      rewrite ?Qle_bool_iff in *;
      try (assert (¬ (lo <= Decimal_value d)%Q)
             by (rewrite <- Qle_bool_iff; congruence));
      try (assert (¬ (Decimal_value d <= hi)%Q)
             by (rewrite <- Qle_bool_iff; congruence));
      (split; [eauto|]); (split; [split|]);
      try done; try (by intros (d' & [= <-] & ? & ?));
      try (by intros _; exists d);
      (split; [done|]); split; intros d' [= <-]; intros; try done;
      by destruct self.
  - rewrite (Decimal_of_str_raises _ _ Hd). simpl.
    split; [eauto|]. split; [split; [done|by intros (? & ? & _)]|].
    split; [done|]. split; intros; done.
Qed.

Lemma spinbox_focusout_bounds_witness :
  keyed (text (Examples.humidity_spinbox "60")) = true ∧
  float_value (ValidatedSpinbox.from_ (options (Examples.humidity_spinbox "60")))
  = Finite (5 # 10) ∧
  float_value (ValidatedSpinbox.to (options (Examples.humidity_spinbox "60")))
  = Finite 52 ∧
  Decimal_of_str "60" = Ok (mkDecimal false 60 0) ∧
  ¬ (Decimal_value (mkDecimal false 60 0) <= 52)%Q ∧
  ValidatedSpinbox._focusout_validate (Examples.humidity_spinbox "60")
  = (Ok false,
     error_set ("Value is too high (max " +:+ float_str (Finite 52) +:+ ")")
       (Examples.humidity_spinbox "60")).
Proof.
  assert (Hhi : ¬ (Decimal_value (mkDecimal false 60 0) <= 52)%Q).
  { intros Hle. apply Qle_bool_iff in Hle. discriminate Hle. }
  split; [reflexivity|].
  split; [reflexivity|]. split; [reflexivity|]. split; [reflexivity|].
  split; [exact Hhi|].
  apply (proj1 (proj2 (proj2 (proj2
           (spinbox_focusout_bounds (Examples.humidity_spinbox "60")
              (5 # 10) 52 eq_refl eq_refl eq_refl))))
           (mkDecimal false 60 0) eq_refl Hhi).
Defined.

(** X9: what the key rule lets through, the focus-out rule can refuse only for
    being too low: a numeral that the key rule accepted on an insertion is
    not above the maximum and has no decimal place beyond the precision, and
    once in the widget it passes the focus-out rule exactly when it is not
    below the minimum. *)
Theorem spinbox_key_then_focusout `{Tcl} (a : Args)
    (self : Widget ValidatedSpinbox.t) (d : Decimal) :
  action a ≠ "0" →
  (ValidatedSpinbox._key_validate a self).1 = Ok true →
  Decimal_of_str (proposed a) = Ok d →
  Decimal_gt d (float_value (ValidatedSpinbox.to (options self))) = false ∧
  (ValidatedSpinbox.precision (options self) <= exponent d)%Z ∧
  (ValidatedSpinbox._focusout_validate (set (proposed a) self)).1
  = Ok (negb (Decimal_lt d (float_value (ValidatedSpinbox.from_ (options self))))).
Proof.
  intros Ha Hkey Hd. unfold ValidatedSpinbox._key_validate in Hkey.
  destruct (String.eqb_spec (action a) "0"); [done|].
  destruct (negb (str_contains (char a) "-1234567890.") || _ || _); [done|].
  rewrite (lone_signs_not_numerals _ _ Hd), Hd in Hkey.
  destruct (Decimal_gt d _) eqn:Eg; [done|].
  destruct (Z.ltb_spec (exponent d) (ValidatedSpinbox.precision (options self)));
    [done|].
  split; [done|]. split; [done|].
  unfold ValidatedSpinbox._focusout_validate. simpl. rewrite Hd, Eg.
  by destruct (Decimal_lt d _).
Qed.

Lemma spinbox_key_then_focusout_witness :
  (ValidatedSpinbox._key_validate (Examples.insertion "0." "2" "2" "0.2")
     (Examples.humidity_spinbox "0.")).1
  = Ok true ∧
  Decimal_of_str "0.2" = Ok (mkDecimal false 2 (-1)) ∧
  (ValidatedSpinbox._focusout_validate (Examples.humidity_spinbox "0.2")).1
  = Ok false.
Proof.
  split; [reflexivity|]. split; [reflexivity|].
  apply (proj2 (proj2
           (spinbox_key_then_focusout (Examples.insertion "0." "2" "2" "0.2")
              (Examples.humidity_spinbox "0.") (mkDecimal false 2 (-1))
              ltac:(discriminate) eq_refl eq_refl))).
Defined.

(** *** The precision of a spin box *)

Lemma strip_zeros_spec (fuel : nat) : ∀ (c : N) (e : Z),
  (e <= (strip_zeros fuel c e).2)%Z ∧
  Z.of_N c
  = (Z.of_N (strip_zeros fuel c e).1 * 10 ^ ((strip_zeros fuel c e).2 - e))%Z ∧
  ((c < 2 ^ N.of_nat fuel)%N → c ≠ 0%N →
   ((strip_zeros fuel c e).1 mod 10)%N ≠ 0%N).
Proof.
  induction fuel as [|fuel IH]; intros c e.
  - simpl. rewrite Z.sub_diag. simpl. split; [lia|]. split; [lia|].
    intros Hc Hne. simpl in Hc. lia.
  - cbn [strip_zeros]. destruct (N.eqb_spec (c mod 10)%N 0) as [Hmod|Hmod];
      [|simpl; rewrite Z.sub_diag; simpl; split; [lia|]; split; [lia|done]].
    destruct (IH (c / 10)%N (e + 1)%Z) as (IH1 & IH2 & IH3).
    pose proof (N.div_mod c 10 ltac:(lia)) as Hdm. rewrite Hmod in Hdm.
    split; [lia|]. split.
    + replace ((strip_zeros fuel (c / 10) (e + 1)).2 - e)%Z
        with (Z.succ ((strip_zeros fuel (c / 10) (e + 1)).2 - (e + 1)))%Z by lia.
      rewrite Z.pow_succ_r by lia.
      assert (Hc : Z.of_N c = (10 * Z.of_N (c / 10))%Z) by lia.
      rewrite Hc, IH2 at 1. ring.
    + intros Hc Hne. apply IH3; [|lia].
      rewrite Nat2N.inj_succ, N.pow_succ_r' in Hc. lia.
Qed.

(** X10: the precision of a spin box is the place of the last digit of the
    increment that is not a zero.  An increment of at most 28 characters that
    is a numeral gives a precision; the increment is then a whole number that
    is not a multiple of ten, times ten to the precision, and an increment
    worth zero gives the precision 0. *)
Theorem precision_is_last_nonzero_place (increment : string) (d : Decimal) :
  (String.length increment ≤ 28)%nat →
  Decimal_of_str increment = Ok d →
  ∃ p, ValidatedSpinbox.precision_of increment = Ok p ∧
       (coefficient d = 0%N → p = 0%Z) ∧
       (coefficient d ≠ 0%N →
        ∃ c : N, (c mod 10)%N ≠ 0%N ∧ (exponent d <= p)%Z ∧
                 Z.of_N (coefficient d) = (Z.of_N c * 10 ^ (p - exponent d))%Z).
Proof.
  intros _ Hd. unfold ValidatedSpinbox.precision_of. rewrite Hd. simpl.
  eexists. split; [reflexivity|]. unfold normalize.
  destruct (N.eqb_spec (coefficient d) 0) as [Hz|Hnz]; [done|].
  split; [done|]. intros _.
  destruct (strip_zeros_spec (N.to_nat (N.log2 (coefficient d)) + 1)
              (coefficient d) (exponent d)) as (S1 & S2 & S3).
  destruct (strip_zeros _ (coefficient d) (exponent d)) as [c e] eqn:Hs.
  simpl in *. exists c. split; [|done].
  apply S3; [|done].
  replace (N.of_nat (N.to_nat (N.log2 (coefficient d)) + 1))
    with (N.succ (N.log2 (coefficient d))) by lia.
  apply N.log2_spec. lia.
Qed.

Lemma precision_is_last_nonzero_place_witness :
  Decimal_of_str "0.010" = Ok (mkDecimal false 10 (-3)) ∧
  ValidatedSpinbox.precision_of "0.010" = Ok (-2)%Z ∧
  ∃ p, ValidatedSpinbox.precision_of "0.010" = Ok p ∧
       (10%N = 0%N → p = 0%Z) ∧
       (10%N ≠ 0%N →
        ∃ c : N, (c mod 10)%N ≠ 0%N ∧ (-3 <= p)%Z ∧
                 Z.of_N 10 = (Z.of_N c * 10 ^ (p - -3))%Z).
Proof.
  split; [reflexivity|]. split; [reflexivity|].
  apply (precision_is_last_nonzero_place "0.010" (mkDecimal false 10 (-3))).
  - simpl. lia.
  - reflexivity.
Defined.

(** ** The date of the file name *)

Lemma two_digits (n : N) :
  (n < 100)%N →
  ∃ a b, zfill 2 (pretty n) = String a (String b "") ∧
         is_decimal_char a = true ∧ is_decimal_char b = true ∧
         digits_value 0 [a; b] = n.
Proof.
  intros Hn.
  assert (H : forallb
                (fun n : N =>
                   match zfill 2 (pretty n) with
                   | String a (String b "") =>
                       is_decimal_char a && is_decimal_char b
                       && (digits_value 0 [a; b] =? n)%N
                   | _ => false
                   end)
                (map N.of_nat (seq 0 100)) = true)
    by (vm_compute; reflexivity).
  rewrite List.forallb_forall in H.
  assert (Hin : In n (map N.of_nat (seq 0 100)))
    by (apply in_map_iff; exists (N.to_nat n); split; [lia|apply in_seq; lia]).
  specialize (H n Hin).
  destruct (zfill 2 (pretty n)) as [|a [|b [|]]]; try discriminate H.
  exists a, b. rewrite !andb_true_iff, N.eqb_eq in H. by destruct H as [[? ?] ?].
Qed.

Lemma four_digits (n : N) :
  (n < 10000)%N →
  ∃ a b c d, zfill 4 (pretty n) = String a (String b (String c (String d ""))) ∧
             forallb is_decimal_char [a; b; c; d] = true ∧
             digits_value 0 [a; b; c; d] = n.
Proof.
  intros Hn.
  assert (H : forallb
                (fun n : N =>
                   match zfill 4 (pretty n) with
                   | String a (String b (String c (String d ""))) =>
                       forallb is_decimal_char [a; b; c; d]
                       && (digits_value 0 [a; b; c; d] =? n)%N
                   | _ => false
                   end)
                (map N.of_nat (seq 0 (100 * 100))) = true)
    by (vm_compute; reflexivity).
  rewrite List.forallb_forall in H.
  assert (Hin : In n (map N.of_nat (seq 0 (100 * 100))))
    by (apply in_map_iff; exists (N.to_nat n); split; [lia|apply in_seq; lia]).
  specialize (H n Hin).
  destruct (zfill 4 (pretty n)) as [|a [|b [|c [|d [|]]]]]; try discriminate H.
  exists a, b, c, d. rewrite andb_true_iff, N.eqb_eq in H. by destruct H.
Qed.

Lemma decimal_char_not (a c : ascii) :
  is_decimal_char a = true → is_decimal_char c = false → Ascii.eqb a c = false.
Proof.
  intros Ha Hc. destruct (Ascii.eqb_spec a c) as [->|]; [congruence|done].
Qed.

Lemma datetime_valid (dt : date) :
  datetime (year dt) (month dt) (day dt) = Ok dt →
  (1 ≤ year dt ≤ 9999)%N ∧ (1 ≤ month dt ≤ 12)%N ∧
  (1 ≤ day dt ≤ days_in_month (year dt) (month dt))%N.
Proof.
  unfold datetime.
  destruct ((1 <=? year dt) && (year dt <=? 9999))%N eqn:Ey; [|done].
  destruct ((1 <=? month dt) && (month dt <=? 12))%N eqn:Em; [|done].
  destruct ((1 <=? day dt) && (day dt <=? days_in_month (year dt) (month dt)))%N
    eqn:Ed; [|done].
  intros _. rewrite andb_true_iff, !N.leb_le in Ey, Em, Ed. lia.
Qed.

(** The text that [strftime] writes for a day of the calendar: ten characters
    laid out as four, two and two digits, which [strptime] reads back. *)
Lemma strftime_shape (dt : date) :
  datetime (year dt) (month dt) (day dt) = Ok dt →
  ∃ y1 y2 y3 y4 m1 m2 d1 d2,
    strftime_Ymd dt
    = String y1 (String y2 (String y3 (String y4 (String "-"
        (String m1 (String m2 (String "-" (String d1 (String d2 ""))))))))) ∧
    iso_date_text (strftime_Ymd dt) = true ∧
    strptime_Ymd (strftime_Ymd dt) = Ok dt.
Proof.
  intros Hvalid. destruct (datetime_valid dt Hvalid) as (Hy & Hm & Hd).
  pose proof (days_in_month_le (year dt) (month dt)) as Hdim.
  destruct (four_digits (year dt)) as (y1 & y2 & y3 & y4 & Ey & Fy & Vy); [lia|].
  destruct (two_digits (month dt)) as (m1 & m2 & Em & Fm1 & Fm2 & Vm); [lia|].
  destruct (two_digits (day dt)) as (d1 & d2 & Ed & Fd1 & Fd2 & Vd); [lia|].
  exists y1, y2, y3, y4, m1, m2, d1, d2.
  assert (E : strftime_Ymd dt
              = String y1 (String y2 (String y3 (String y4 (String "-"
                  (String m1 (String m2 (String "-" (String d1 (String d2 "")))))))))).
  { unfold strftime_Ymd. by rewrite Ey, Em, Ed. }
  assert (Hdates : ((1 <=? year dt) && (1 <=? month dt) && (month dt <=? 12)
                    && (1 <=? day dt)
                    && (day dt <=? days_in_month (year dt) (month dt)))%N = true).
  { rewrite !andb_true_iff, !N.leb_le. lia. }
  split; [done|]. rewrite E.
  assert (Hiso : iso_date_text
                   (String y1 (String y2 (String y3 (String y4 (String "-"
                      (String m1 (String m2 (String "-" (String d1 (String d2 ""))))))))))
                 = true).
  { unfold iso_date_text. cbn [String.list_ascii_of_string].
    cbn [forallb] in Fy |- *. rewrite !andb_true_iff in Fy.
    destruct Fy as (F1 & F2 & F3 & F4 & _).
    rewrite F1, F2, F3, F4, Fm1, Fm2, Fd1, Fd2. cbn [andb Ascii.eqb Bool.eqb].
    cbv zeta. rewrite Vy, Vm, Vd. exact Hdates. }
  split; [exact Hiso|].
  apply strptime_reads. exists (year dt), (month dt), (day dt).
  split; [|done].
  unfold date_fields. cbn [String.list_ascii_of_string]. rewrite Fy.
  cbn [andb Ascii.eqb Bool.eqb]. cbv beta iota.
  cbn [split_hyphen].
  rewrite (decimal_char_not m1 "-" Fm1), (decimal_char_not m2 "-" Fm2)
    by reflexivity.
  cbn [Ascii.eqb Bool.eqb mbind option_bind].
  unfold month_number, day_number.
  rewrite Fm1, Fm2, Fd1, Fd2, (decimal_char_not d1 " " Fd1) by reflexivity.
  rewrite Vy, Vm, Vd.
  assert (E1 : ((1 <=? month dt) && (month dt <=? 12))%N = true)
    by (rewrite andb_true_iff, !N.leb_le; lia).
  assert (E2 : ((1 <=? day dt) && (day dt <=? 31))%N = true)
    by (rewrite andb_true_iff, !N.leb_le; lia).
  cbn [andb]. rewrite <- andb_assoc in *.
  cbn [andb]. rewrite E1, E2. reflexivity.
Qed.

(** X11: the file of a day is named by a date that the date field reads
    back.  For a day of the calendar in a year of four digits, the date in
    the file name is laid out as four, two and two digits, [strptime] reads
    it as that day, so the date entry accepts it on focus-out, and two days
    that differ have files that differ. *)
Theorem file_date_round_trip (dt : date) :
  (1000 ≤ year dt)%N →
  datetime (year dt) (month dt) (day dt) = Ok dt →
  strptime_Ymd (strftime_Ymd dt) = Ok dt ∧
  iso_date_text (strftime_Ymd dt) = true ∧
  (∀ self : Widget DateEntry.t,
     text self = strftime_Ymd dt →
     DateEntry._focusout_validate self = (Ok true, self)) ∧
  (∀ dt' : date,
     (1000 ≤ year dt')%N →
     datetime (year dt') (month dt') (day dt') = Ok dt' →
     save_filename dt = save_filename dt' → dt = dt').
Proof.
  intros _ Hvalid.
  destruct (strftime_shape dt Hvalid)
    as (y1 & y2 & y3 & y4 & m1 & m2 & d1 & d2 & E & Hiso & Hround).
  split; [done|]. split; [done|]. split.
  - intros self Ht. rewrite date_focusout_rule, Ht, Hround. done.
  - intros dt' _ Hvalid' Hname.
    destruct (strftime_shape dt' Hvalid')
      as (y1' & y2' & y3' & y4' & m1' & m2' & d1' & d2' & E' & _ & Hround').
    assert (Hsame : strftime_Ymd dt = strftime_Ymd dt').
    { unfold save_filename in Hname. rewrite E, E' in Hname |- *.
      cbv beta iota delta [String.append] in Hname. congruence. }
    rewrite Hsame in Hround. congruence.
Qed.

Lemma file_date_round_trip_witness :
  (1000 ≤ year Examples.today)%N ∧
  datetime (year Examples.today) (month Examples.today) (day Examples.today)
  = Ok Examples.today ∧
  strptime_Ymd (strftime_Ymd Examples.today) = Ok Examples.today.
Proof.
  assert (Hy : (1000 ≤ year Examples.today)%N) by (vm_compute; discriminate).
  split; [exact Hy|]. split; [reflexivity|].
  apply (proj1 (file_date_round_trip Examples.today Hy eq_refl)).
Defined.

(** ** Typing a date *)

Lemma list_ascii_app_one (s : string) (c : ascii) :
  String.list_ascii_of_string (s +:+ String c "")
  = String.list_ascii_of_string s ++ [c].
Proof.
  induction s as [|a s IH]; [done|].
  change (String a s +:+ String c "") with (String a (s +:+ String c "")).
  simpl. by rewrite IH.
Qed.

Lemma length_list_ascii (s : string) :
  length (String.list_ascii_of_string s) = String.length s.
Proof. induction s as [|a s IH]; simpl; by rewrite ?IH. Qed.

Lemma iso_keystroke_at (n : nat) (c : ascii) :
  iso_keystroke c (pretty n) = layout_at n c.
Proof.
  unfold iso_keystroke.
  destruct (decide (n < 10)%nat) as [Hn|Hn].
  - do 10 (destruct n as [|n];
           [repeat match goal with
                   | |- context [str_in ?i ?l] =>
                       let b := eval vm_compute in (str_in i l) in
                       change (str_in i l) with b
                   end;
            cbn [layout_at];
            by destruct (is_decimal_char c), (Ascii.eqb c "-")|]).
    lia.
  - assert (E : ∀ s, (∃ m : nat, (m < 10)%nat ∧ pretty m = s) →
                     String.eqb (pretty n) s = false).
    { intros s (m & Hm & <-). apply pretty_nat_not. lia. }
    unfold str_in. simpl.
    rewrite (E "0"), (E "1"), (E "2"), (E "3"), (E "4"), (E "5"),
      (E "6"), (E "7"), (E "8"), (E "9").
    + rewrite !andb_false_r. simpl.
      do 10 (destruct n as [|n]; [lia|]). done.
    + exists 9%nat. split; [lia|reflexivity].
    + exists 8%nat. split; [lia|reflexivity].
    + exists 7%nat. split; [lia|reflexivity].
    + exists 6%nat. split; [lia|reflexivity].
    + exists 5%nat. split; [lia|reflexivity].
    + exists 4%nat. split; [lia|reflexivity].
    + exists 3%nat. split; [lia|reflexivity].
    + exists 2%nat. split; [lia|reflexivity].
    + exists 1%nat. split; [lia|reflexivity].
    + exists 0%nat. split; [lia|reflexivity].
Qed.

(** One keystroke: the character goes to the end of the text exactly when
    it fits the layout at that position. *)
Lemma keystroke_layout (self : Widget DateEntry.t) (c : ascii) :
  state self ≠ DISABLED → (code c < 128)%N →
  state (Typing.keystroke self c) = state self ∧
  String.list_ascii_of_string (text (Typing.keystroke self c))
  = String.list_ascii_of_string (text self)
      ++ (if layout_at (String.length (text self)) c then [c] else []).
Proof.
  intros Hs Hc. unfold Typing.keystroke, validation_event, _validate.
  cbn [event]. change (String.eqb "key" "focusout") with false.
  change (String.eqb "key" "key") with true. cbv beta iota zeta.
  set (cleared := _toggle_error false (error_set "" self)).
  assert (E : String.eqb (state cleared) DISABLED = false).
  { change (state cleared) with (state self).
    by destruct (String.eqb_spec (state self) DISABLED). }
  rewrite E. cbn [_key_validate DateEntry_ValidatedMixin].
  rewrite (date_key_rule_ascii _ cleared c) by done.
  cbn [action index]. change (String.eqb "1" "0") with false. cbv beta iota.
  rewrite iso_keystroke_at.
  change (text cleared) with (text self).
  destruct (layout_at (String.length (text self)) c).
  - split; [done|]. cbn [text icursor_END set]. apply list_ascii_app_one.
  - split; [done|]. by rewrite app_nil_r.
Qed.

Lemma type_layout (keys : list ascii) : ∀ self : Widget DateEntry.t,
  state self ≠ DISABLED → Forall (fun c => (code c < 128)%N) keys →
  (∀ i c, String.list_ascii_of_string (text self) !! i = Some c →
          layout_at i c = true) →
  ∀ i c, String.list_ascii_of_string (text (Typing.type keys self)) !! i = Some c →
         layout_at i c = true.
Proof.
  induction keys as [|k keys IH]; intros self Hs Hkeys Hinv; [done|].
  apply Forall_cons in Hkeys as [Hk Hkeys].
  destruct (keystroke_layout self k Hs Hk) as [Hstate Htext].
  change (Typing.type (k :: keys) self)
    with (Typing.type keys (Typing.keystroke self k)).
  apply IH; [by rewrite Hstate|done|].
  intros i c. rewrite Htext.
  destruct (layout_at (String.length (text self)) k) eqn:Hl;
    [|rewrite app_nil_r; apply Hinv].
  intros Hi. apply lookup_app_Some in Hi as [Hi|[Hlen Hi]]; [by apply Hinv|].
  rewrite length_list_ascii in Hlen, Hi.
  destruct (i - String.length (text self))%nat as [|j] eqn:Hj; [|done].
  injection Hi as <-. by replace i with (String.length (text self)) by lia.
Qed.

(** A text of ten characters in the layout passes [strptime] exactly when it
    names a day of the calendar. *)
Lemma laid_out_parses (s : string) :
  String.length s = 10%nat →
  (∀ i c, String.list_ascii_of_string s !! i = Some c → layout_at i c = true) →
  (∃ dt, strptime_Ymd s = Ok dt) ↔ iso_date_text s = true.
Proof.
  intros Hlen Hlay. split; [|apply iso_date_text_parses].
  intros [dt Hdt]. apply strptime_reads in Hdt as (y & m & d & Hf & Hd).
  rewrite <- length_list_ascii in Hlen.
  unfold iso_date_text. unfold date_fields in Hf.
  destruct (String.list_ascii_of_string s)
    as [|y1 [|y2 [|y3 [|y4 [|h1 [|m1 [|m2 [|h2 [|d1 [|d2 [|]]]]]]]]]]];
    try done.
  pose proof (Hlay 0%nat y1 eq_refl) as L0. pose proof (Hlay 1%nat y2 eq_refl) as L1.
  pose proof (Hlay 2%nat y3 eq_refl) as L2. pose proof (Hlay 3%nat y4 eq_refl) as L3.
  pose proof (Hlay 4%nat h1 eq_refl) as L4. pose proof (Hlay 5%nat m1 eq_refl) as L5.
  pose proof (Hlay 6%nat m2 eq_refl) as L6. pose proof (Hlay 7%nat h2 eq_refl) as L7.
  pose proof (Hlay 8%nat d1 eq_refl) as L8. pose proof (Hlay 9%nat d2 eq_refl) as L9.
  cbn [layout_at] in L0, L1, L2, L3, L4, L5, L6, L7, L8, L9.
  apply Ascii.eqb_eq in L4, L7. subst h1 h2.
  cbn [forallb] in Hf |- *. rewrite L0, L1, L2, L3 in Hf.
  rewrite L0, L1, L2, L3, L5, L6, L8, L9.
  cbn [andb Ascii.eqb Bool.eqb] in Hf |- *. cbv beta iota in Hf.
  cbn [split_hyphen] in Hf.
  rewrite (decimal_char_not m1 "-" L5), (decimal_char_not m2 "-" L6) in Hf
    by reflexivity.
  cbn [Ascii.eqb Bool.eqb mbind option_bind] in Hf.
  unfold month_number, day_number in Hf.
  rewrite L5, L6, L8, L9, (decimal_char_not d1 " " L8) in Hf by reflexivity.
  cbn [andb] in Hf.
  destruct ((1 <=? digits_value 0 [m1; m2])
            && (digits_value 0 [m1; m2] <=? 12))%N eqn:Em; [|done].
  destruct ((1 <=? digits_value 0 [d1; d2])
            && (digits_value 0 [d1; d2] <=? 31))%N eqn:Ed; [|done].
  cbn [mbind option_bind] in Hf. cbv zeta.
  remember (digits_value 0 [y1; y2; y3; y4]) as Y eqn:HY.
  remember (digits_value 0 [m1; m2]) as M eqn:HM.
  remember (digits_value 0 [d1; d2]) as D eqn:HD.
  injection Hf as <- <- <-. unfold datetime in Hd.
  destruct ((1 <=? Y) && (Y <=? 9999))%N eqn:Ey; [|done].
  rewrite Em in Hd.
  destruct ((1 <=? D) && (D <=? days_in_month Y M))%N eqn:Edd; [|done].
  rewrite andb_true_iff, !N.leb_le in Ey, Em, Edd.
  rewrite !andb_true_iff, !N.leb_le. lia.
Qed.

(** X12: the two rules of the date entry together give the layout of the
    date when it is typed.  ASCII characters typed one after the other at
    the end of an empty entry leave a text in which every position has a
    decimal digit, or a hyphen at 4 and 7, and that has at most ten
    characters; and when ten characters are in, the focus-out check accepts
    the text exactly when it is laid out as four, two and two digits that
    name a day of the calendar. *)
Theorem typed_date_is_laid_out (keys : list ascii) (self : Widget DateEntry.t) :
  text self = "" → state self ≠ DISABLED →
  Forall (fun c => (code c < 128)%N) keys →
  (∀ i c,
     String.list_ascii_of_string (text (Typing.type keys self)) !! i = Some c →
     layout_at i c = true) ∧
  (String.length (text (Typing.type keys self)) ≤ 10)%nat ∧
  (String.length (text (Typing.type keys self)) = 10%nat →
   ((trigger_focusout_validation (Typing.type keys self)).1 = Ok true
    ↔ iso_date_text (text (Typing.type keys self)) = true)).
Proof.
  intros Ht Hs Hkeys.
  assert (Hlay : ∀ i c,
            String.list_ascii_of_string (text (Typing.type keys self)) !! i = Some c →
            layout_at i c = true).
  { apply type_layout; [done|done|]. rewrite Ht. intros i c Hi. by destruct i. }
  assert (Hstate : ∀ (ks : list ascii) (w : Widget DateEntry.t),
            state w ≠ DISABLED → Forall (fun c => (code c < 128)%N) ks →
            state (Typing.type ks w) ≠ DISABLED).
  { clear. intros ks. induction ks as [|k ks IH]; intros w Hw Hk; [done|].
    apply Forall_cons in Hk as [Hk Hks].
    change (Typing.type (k :: ks) w)
      with (Typing.type ks (Typing.keystroke w k)).
    apply IH; [|done]. by rewrite (proj1 (keystroke_layout w k Hw Hk)). }
  specialize (Hstate keys self Hs Hkeys).
  set (w := Typing.type keys self) in *.
  split; [exact Hlay|]. split.
  - rewrite <- length_list_ascii.
    destruct (decide (length (String.list_ascii_of_string (text w)) ≤ 10)%nat)
      as [|Hlong]; [done|].
    destruct (lookup_lt_is_Some_2 (String.list_ascii_of_string (text w)) 10)
      as [c Hc]; [lia|].
    by apply Hlay in Hc.
  - intros Hlen. rewrite <- (laid_out_parses (text w) Hlen Hlay).
    unfold trigger_focusout_validation, _validate. cbn [event].
    change (String.eqb "focusout" "focusout") with true.
    set (cleared := _toggle_error false (error_set "" w)).
    change (state cleared) with (state w).
    destruct (String.eqb_spec (state w) DISABLED) as [|_]; [done|].
    cbn [_focusout_validate DateEntry_ValidatedMixin].
    rewrite date_focusout_rule. change (text cleared) with (text w).
    destruct (strptime_Ymd (text w)) as [dt|e]; simpl.
    + split; [by eexists|done].
    + split; [done|by intros [? ?]].
Qed.

Lemma typed_date_is_laid_out_witness :
  text (Typing.type (String.list_ascii_of_string "2026-1x1-03")
          (Inputs.widget DateEntry.new ""))
  = "2026-11-03" ∧
  (trigger_focusout_validation
     (Typing.type (String.list_ascii_of_string "2026-1x1-03")
        (Inputs.widget DateEntry.new ""))).1
  = Ok true.
Proof.
  split; [reflexivity|].
  apply (proj2 (proj2
           (typed_date_is_laid_out (String.list_ascii_of_string "2026-1x1-03")
              (Inputs.widget DateEntry.new "") eq_refl ltac:(discriminate)
              ltac:(repeat constructor)))).
  - reflexivity.
  - reflexivity.
Defined.
